(** * RAHL APK builder: classifier, scaffolding, build jobs, build invoker

    A shallow embedding of [backend/app.py] (class [RahlAIBuilder] and the
    request handlers) and [backend/build.py] (class [AndroidAPKBuilder]).

    Python [str] values are modelled as [string]; a character is a Unicode
    code point below 256 (the type [ascii]).  On that range [str.lower],
    [str.isspace], [str.split] and [str.strip] are the functions defined in
    module [Str] below. *)

From Stdlib Require Import Ascii String List ZArith Lia Bool DecimalString.
From stdpp Require Import gmap strings.

Local Open Scope nat_scope.

(** ** Python string primitives *)
Module Str.

(** [c.isspace()] for a code point below 256: TAB, LF, VT, FF, CR, the four
    separators FS GS RS US, SPACE, NEL (0x85) and NBSP (0xA0). *)
Definition isspace (c : ascii) : bool :=
  let n := nat_of_ascii c in
  ((9 <=? n) && (n <=? 13)) || ((28 <=? n) && (n <=? 32))
  || (n =? 133) || (n =? 160).

(** [c.lower()] for a code point below 256: A-Z, and the Latin-1 capitals
    U+00C0..U+00DE except the multiplication sign U+00D7, move up by 32. *)
Definition lower_char (c : ascii) : ascii :=
  let n := nat_of_ascii c in
  if ((65 <=? n) && (n <=? 90))
     || ((192 <=? n) && (n <=? 214))
     || ((216 <=? n) && (n <=? 222))
  then ascii_of_nat (n + 32) else c.

Fixpoint map_chars (f : ascii -> ascii) (s : string) : string :=
  match s with
  | EmptyString => EmptyString
  | String c s' => String (f c) (map_chars f s')
  end.

(** [s.lower()] *)
Definition lower (s : string) : string := map_chars lower_char s.

(** [s.replace(a, b)] for one-character [a] and [b]. *)
Definition replace_char (a b : ascii) (s : string) : string :=
  map_chars (fun c => if Ascii.eqb c a then b else c) s.

(** [s.startswith(k)] *)
Fixpoint startswith (k s : string) : bool :=
  match k, s with
  | EmptyString, _ => true
  | String a k', String b s' => Ascii.eqb a b && startswith k' s'
  | String _ _, EmptyString => false
  end.

(** [k in s]: [k] occurs in [s] as a contiguous substring. *)
Fixpoint contains (k s : string) : bool :=
  startswith k s
  || match s with
     | EmptyString => false
     | String _ s' => contains k s'
     end.

Definition starts_with_space (s : string) : bool :=
  match s with
  | EmptyString => true
  | String c _ => isspace c
  end.

(** [s.split()]: the maximal runs of non-whitespace characters, in order. *)
Fixpoint split (s : string) : list string :=
  match s with
  | EmptyString => []
  | String c s' =>
      if isspace c then split s'
      else if starts_with_space s' then String c EmptyString :: split s'
      else match split s' with
           | w :: ws => String c w :: ws
           | [] => [String c EmptyString]
           end
  end.

Fixpoint lstrip (s : string) : string :=
  match s with
  | EmptyString => EmptyString
  | String c s' => if isspace c then lstrip s' else s
  end.

Fixpoint rstrip (s : string) : string :=
  match s with
  | EmptyString => EmptyString
  | String c s' =>
      match rstrip s' with
      | EmptyString => if isspace c then EmptyString else String c EmptyString
      | r => String c r
      end
  end.

(** [s.strip()] *)
Definition strip (s : string) : string := rstrip (lstrip s).

(** [sep.join(ws)] *)
Fixpoint join (sep : string) (ws : list string) : string :=
  match ws with
  | [] => EmptyString
  | [w] => w
  | w :: ws' => w +:+ sep +:+ join sep ws'
  end.

(** [s[:n]] *)
Fixpoint truncate (n : nat) (s : string) : string :=
  match n, s with
  | S n', String c s' => String c (truncate n' s')
  | _, _ => EmptyString
  end.

(** Every character of [s] satisfies [p]. *)
Fixpoint all_chars (p : ascii -> bool) (s : string) : bool :=
  match s with
  | EmptyString => true
  | String c s' => p c && all_chars p s'
  end.

End Str.

(** ** The intent classifier: [RahlAIBuilder.analyze_description] *)
Module Classifier.
Import Str.

(** The [keywords] dict, in insertion order (the order [.items()] yields). *)
Definition keywords : list (string * list string) :=
  [ ("calculator", ["calculator"; "calculate"; "math"; "arithmetic"; "add"; "subtract"]);
    ("webview",    ["website"; "web"; "http"; "blog"; "site"; "browser"]);
    ("todo",       ["todo"; "to-do"; "task"; "checklist"; "reminder"; "schedule"]);
    ("notes",      ["note"; "notepad"; "write"; "journal"; "diary"]);
    ("weather",    ["weather"; "forecast"; "temperature"; "climate"]);
    ("game",       ["game"; "play"; "fun"; "entertain"; "tic-tac-toe"; "puzzle"]) ].

(** The inner [for keyword in kw_list: if keyword in d: ...; break]. *)
Definition hit (d : string) (kw_list : list string) : bool :=
  existsb (fun keyword => contains keyword d) kw_list.

(** The outer loop: [app_type] starts as ['webview'] and is assigned at each
    entry with a hit; the [break] leaves the inner loop only. *)
Definition scan_keywords (d : string) (kws : list (string * list string))
    (app_type : string) : string :=
  fold_left (fun app_type '(template_type, kw_list) =>
               if hit d kw_list then template_type else app_type)
            kws app_type.

Definition detect_app_type (description_lower : string) : string :=
  scan_keywords description_lower keywords "webview".

(** The feature tests, in the order of the [if] statements. *)
Definition feature_table : list (string * list string) :=
  [ ("dark_mode",      ["dark"; "dark mode"]);
    ("notifications",  ["notification"]);
    ("database",       ["database"; "store"; "save"]);
    ("sharing",        ["share"]);
    ("authentication", ["login"; "sign in"]) ].

Definition extract_features (description_lower : string) : list string :=
  let features := [] in
  let features :=
    if contains "dark" description_lower || contains "dark mode" description_lower
    then features ++ ["dark_mode"] else features in
  let features :=
    if contains "notification" description_lower
    then features ++ ["notifications"] else features in
  let features :=
    if contains "database" description_lower || contains "store" description_lower
       || contains "save" description_lower
    then features ++ ["database"] else features in
  let features :=
    if contains "share" description_lower
    then features ++ ["sharing"] else features in
  let features :=
    if contains "login" description_lower || contains "sign in" description_lower
    then features ++ ["authentication"] else features in
  features.

(** [f"com.rahl.{'.'.join(words)}".replace(' ', '_').lower()[:50]] with
    [words = description_lower.split()[:3]]. *)
Definition make_package_name (description_lower : string) : string :=
  let words := firstn 3 (split description_lower) in
  truncate 50 (lower (replace_char " " "_" ("com.rahl." +:+ join "." words))).

Record Analysis := {
  app_type : string;
  features : list string;
  package_name : string;
  detected_features : nat
}.

Definition analyze_description (description : string) : Analysis :=
  let description_lower := lower description in
  let features := extract_features description_lower in
  {| app_type := detect_app_type description_lower;
     features := features;
     package_name := make_package_name description_lower;
     detected_features := length features |}.

(** The classification rule as the specification words it: the first entry
    of the table with a keyword hit, the default when there is none. *)
Definition spec_first_hit (d : string) : string :=
  match find (fun '(_, kw_list) => hit d kw_list) keywords with
  | Some (template_type, _) => template_type
  | None => "webview"
  end.

Definition spec_classify (description : string) : string :=
  spec_first_hit (lower description).

(** The identifier-safe set of the specification, read generously: ASCII
    letters, digits, the underscore and the separating dot. *)
Definition spec_ident_safe (c : ascii) : bool :=
  let n := nat_of_ascii c in
  ((97 <=? n) && (n <=? 122)) || ((65 <=? n) && (n <=? 90))
  || ((48 <=? n) && (n <=? 57)) || (n =? 95) || (n =? 46).

(** Every keyword some feature test looks for. *)
Definition feature_keywords : list string :=
  concat (map snd feature_table).

End Classifier.

(** ** POSIX paths: [os.path] *)
Module OsPath.
Import Str.

Definition is_sep (c : ascii) : bool := Ascii.eqb c "/".

(** [path.endswith('/')] *)
Fixpoint endswith_sep (path : string) : bool :=
  match path with
  | EmptyString => false
  | String c EmptyString => is_sep c
  | String _ rest => endswith_sep rest
  end.

(** One round of the loop of [posixpath.join]: an absolute component
    replaces what was joined so far. *)
Definition join2 (path b : string) : string :=
  if startswith "/" b then b
  else if match path with EmptyString => true | _ => endswith_sep path end
       then path +:+ b
       else path +:+ "/" +:+ b.

(** [os.path.join(a, *p)] *)
Definition path_join (a : string) (p : list string) : string :=
  fold_left join2 p a.

(** [p[:p.rfind('/') + 1]] *)
Fixpoint head_part (p : string) : string :=
  match p with
  | EmptyString => EmptyString
  | String c rest =>
      match head_part rest with
      | EmptyString => if is_sep c then String c EmptyString else EmptyString
      | h => String c h
      end
  end.

(** [head.rstrip('/')] *)
Fixpoint rstrip_sep (s : string) : string :=
  match s with
  | EmptyString => EmptyString
  | String c rest =>
      match rstrip_sep rest with
      | EmptyString => if is_sep c then EmptyString else String c EmptyString
      | r => String c r
      end
  end.

(** [os.path.dirname(p)] *)
Definition dirname (p : string) : string :=
  let head := head_part p in
  if all_chars is_sep head then head else rstrip_sep head.

(** [s.split(sep)] for a one-character separator: empty fields are kept. *)
Fixpoint split_on (sep : ascii) (s : string) : list string :=
  match s with
  | EmptyString => [EmptyString]
  | String c rest =>
      if Ascii.eqb c sep then EmptyString :: split_on sep rest
      else match split_on sep rest with
           | w :: ws => String c w :: ws
           | [] => [String c EmptyString]
           end
  end.

(** The last character of a path, [None] for the empty path. *)
Fixpoint last_char (s : string) : option ascii :=
  match s with
  | EmptyString => None
  | String c EmptyString => Some c
  | String _ rest => last_char rest
  end.

End OsPath.

(** ** The file system, faults and the effect monad

    The builder works on the file system.  A world holds the regular files
    (a [metadata.json] as the dict it serialises, [json.load] after
    [json.dump] being the identity), the directories, and two ghost fields:
    the journal of all completed file writes, newest first, and the number
    of system calls attempted so far.

    A system call that can fail (creating directories, opening and writing
    or reading a file) asks the fault oracle: [fault n = Some e] makes the
    [n]-th call raise an exception whose [str] is [e] and leave the file
    system as it was.  A write is atomic: it happens in full or not at all. *)
Module Sys.

(** The dict stored in [metadata.json]; the keys ['apk_path'] and ['error']
    are absent until assigned. *)
Record Metadata := mkMetadata {
  id : string;
  app_type : string;
  package_name : string;
  features : list string;
  description : string;
  created_at : string;
  status : string;
  progress : nat;
  apk_path : option string;
  error : option string
}.

Inductive File :=
| Text (content : string)
| Json (metadata : Metadata).

Record World := mkWorld {
  files : gmap string File;
  dirs : gset string;
  journal : list (string * File);
  ticks : nat;
  clock : string
}.

(** A call returns a value or raises an exception, given by its [str]. *)
Inductive Result (A : Type) :=
| Ok (a : A)
| Raise (e : string).
Arguments Ok {A} a.
Arguments Raise {A} e.

(** A computation on a state [S] that returns or raises. *)
Definition St (S A : Type) : Type := S -> Result A * S.

Definition ret {S A} (a : A) : St S A := fun w => (Ok a, w).

Definition bind {S A B} (c : St S A) (k : A -> St S B) : St S B :=
  fun w => match c w with
           | (Ok a, w') => k a w'
           | (Raise e, w') => (Raise e, w')
           end.

Definition raise {S A} (e : string) : St S A := fun w => (Raise e, w).

(** [try: body  except Exception as e: handler(str(e))] *)
Definition try_except {S A} (body : St S A) (handler : string -> St S A)
  : St S A :=
  fun w => match body w with
           | (Ok a, w') => (Ok a, w')
           | (Raise e, w') => handler e w'
           end.

(** The computations of the builder run on the file system. *)
Definition M (A : Type) : Type := St World A.

Declare Scope io_scope.
Delimit Scope io_scope with io.
Notation "x <- c ;; k" := (bind c (fun x => k))
  (at level 20, c at level 99, k at level 200, only parsing)
  : io_scope.

Definition set_files (f : gmap string File -> gmap string File) (w : World) : World :=
  mkWorld (f (files w)) (dirs w) (journal w) (ticks w) (clock w).
Definition set_dirs (f : gset string -> gset string) (w : World) : World :=
  mkWorld (files w) (f (dirs w)) (journal w) (ticks w) (clock w).
Definition log_write (p : string) (f : File) (w : World) : World :=
  mkWorld (files w) (dirs w) ((p, f) :: journal w) (ticks w) (clock w).
Definition tick (w : World) : World :=
  mkWorld (files w) (dirs w) (journal w) (S (ticks w)) (clock w).

Section Primitives.
Variable fault : nat -> option string.

(** A system call: count it, then fail or perform it. *)
Definition syscall {A} (op : World -> Result A * World) : M A :=
  fun w => match fault (ticks w) with
           | Some e => (Raise e, tick w)
           | None => op (tick w)
           end.

(** [os.makedirs(p, exist_ok=True)] *)
Definition makedirs (p : string) : M unit :=
  syscall (fun w => (Ok tt, set_dirs (fun d => d ∪ {[p]}) w)).

(** [with open(p, 'w') as f: f.write(...)] or [json.dump(..., f)] *)
Definition write_file (p : string) (f : File) : M unit :=
  syscall (fun w => (Ok tt, log_write p f (set_files (insert p f) w))).

(** [with open(p, 'r') as f: json.load(f)] *)
Definition read_json (p : string) : M Metadata :=
  syscall (fun w => match files w !! p with
                    | Some (Json m) => (Ok m, w)
                    | Some (Text _) => (Raise "JSONDecodeError", w)
                    | None => (Raise "FileNotFoundError", w)
                    end).

End Primitives.

(** The successive contents written to [p], oldest first. *)
Definition history (p : string) (w : World) : list File :=
  rev (map snd (List.filter (fun x => String.eqb (fst x) p) (journal w))).

(** The writes completed between [w] and a later world [w'], newest
    first. *)
Definition written_since (w w' : World) : list (string * File) :=
  firstn (length (journal w') - length (journal w)) (journal w').

(** The lifecycle state a file content stands for. *)
Definition state_of (f : File) : option (string * nat) :=
  match f with
  | Json m => Some (status m, progress m)
  | Text _ => None
  end.

(** [os.path.exists(p)] *)
Definition exists_at (p : string) (w : World) : bool :=
  bool_decide (is_Some (files w !! p)) || bool_decide (p ∈ dirs w).

Definition path_exists (p : string) : M bool :=
  fun w => (Ok (exists_at p w), w).

(** [datetime.now().isoformat()] *)
Definition now : M string := fun w => (Ok (clock w), w).

(** [print(...)] *)
Definition print (line : string) : M unit := ret tt.

End Sys.

(** ** The builder: [RahlAIBuilder]

    The text of the generated files is template data.  The literal text
    between the substituted values of each template is a field of
    [Templates]; which values are substituted, and where, is as in the
    source.  The stub artifact is given in full. *)
Module Builder.
Import Str OsPath Sys.
Local Open Scope io_scope.

Record Templates := mkTemplates {
  (** [AndroidManifest.xml]: text before and after the package name *)
  manifest_head : string;
  manifest_tail : string;
  (** [MainActivity.java]: text after [package <name>] per app type; the
      default activity also echoes the app type *)
  activity_calculator : string;
  activity_webview : string;
  activity_todo : string;
  activity_default_head : string;
  activity_default_tail : string;
  (** [activity_main.xml] per app type, and the calculator's [styles.xml] *)
  layout_calculator : string;
  styles_calculator : string;
  layout_webview : string;
  layout_todo : string;
  layout_default : string;
  (** [app/build.gradle]: text around the two [%s] *)
  app_build_gradle_1 : string;
  app_build_gradle_2 : string;
  app_build_gradle_3 : string;
  project_build_gradle : string;
  settings_gradle : string;
  gradle_props : string;
  (** [strings.xml]: text before and after the app name *)
  strings_head : string;
  strings_tail : string
}.

(** The text written by [create_dummy_apk]. *)
Definition dummy_content : string :=
"Rahl AI - Generated APK
========================
This is a demo APK generated by Rahl AI Builder.

For a real APK, you need to:
1. Install Android SDK
2. Set up Gradle
3. Build with: ./gradlew assembleDebug

But for this demo, we're showing the process!

Your app has been successfully analyzed and the code generated.

Check the project folder for complete Android source code.".

(** [app_names.get(app_type, 'Rahl App')] *)
Definition app_names : list (string * string) :=
  [ ("calculator", "Rahl Calculator"); ("webview", "Rahl Browser");
    ("todo", "Rahl Todo"); ("notes", "Rahl Notes");
    ("weather", "Rahl Weather"); ("game", "Rahl Game") ].

Definition app_name_of (app_type : string) : string :=
  match find (fun '(k, _) => String.eqb k app_type) app_names with
  | Some (_, name) => name
  | None => "Rahl App"
  end.

Section WithEnvironment.
Variable fault : nat -> option string.
Variable PROJECTS_DIR : string.
Variable T : Templates.

Local Abbreviation makedirs := (Sys.makedirs fault).
Local Abbreviation write_file := (Sys.write_file fault).
Local Abbreviation read_json := (Sys.read_json fault).

Definition generate_manifest (project_path package_name app_type : string)
  : M unit :=
  let manifest_content := manifest_head T +:+ package_name +:+ manifest_tail T in
  let manifest_path :=
    path_join project_path ["app"; "src"; "main"; "AndroidManifest.xml"] in
  _ <- makedirs (dirname manifest_path) ;;
  write_file manifest_path (Text manifest_content).

Definition generate_main_activity
    (project_path package_name app_type : string) (features : list string)
  : M unit :=
  let package_path := replace_char "." "/" package_name in
  let java_dir :=
    path_join project_path ["app"; "src"; "main"; "java"; package_path] in
  _ <- makedirs java_dir ;;
  let activity_content :=
    if String.eqb app_type "calculator" then
      "package " +:+ package_name +:+ activity_calculator T
    else if String.eqb app_type "webview" then
      "package " +:+ package_name +:+ activity_webview T
    else if String.eqb app_type "todo" then
      "package " +:+ package_name +:+ activity_todo T
    else
      "package " +:+ package_name +:+ activity_default_head T
      +:+ app_type +:+ activity_default_tail T in
  let activity_path := path_join java_dir ["MainActivity.java"] in
  write_file activity_path (Text activity_content).

Definition generate_layouts (project_path app_type : string) : M unit :=
  let layout_dir :=
    path_join project_path ["app"; "src"; "main"; "res"; "layout"] in
  _ <- makedirs layout_dir ;;
  layout_content <-
    (if String.eqb app_type "calculator" then
       let styles_dir :=
         path_join project_path ["app"; "src"; "main"; "res"; "values"] in
       _ <- makedirs styles_dir ;;
       let styles_path := path_join styles_dir ["styles.xml"] in
       _ <- write_file styles_path (Text (styles_calculator T)) ;;
       ret (layout_calculator T)
     else if String.eqb app_type "webview" then ret (layout_webview T)
     else if String.eqb app_type "todo" then ret (layout_todo T)
     else ret (layout_default T)) ;;
  let layout_path := path_join layout_dir ["activity_main.xml"] in
  write_file layout_path (Text layout_content).

Definition generate_build_gradle (project_path package_name : string)
  : M unit :=
  let app_build_gradle :=
    app_build_gradle_1 T +:+ package_name +:+ app_build_gradle_2 T
    +:+ package_name +:+ app_build_gradle_3 T in
  let app_build_path := path_join project_path ["app"; "build.gradle"] in
  _ <- makedirs (dirname app_build_path) ;;
  _ <- write_file app_build_path (Text app_build_gradle) ;;
  let project_build_path := path_join project_path ["build.gradle"] in
  _ <- write_file project_build_path (Text (project_build_gradle T)) ;;
  let settings_path := path_join project_path ["settings.gradle"] in
  _ <- write_file settings_path (Text (settings_gradle T)) ;;
  let props_path := path_join project_path ["gradle.properties"] in
  write_file props_path (Text (gradle_props T)).

Definition generate_strings (project_path app_type : string) : M unit :=
  let strings_dir :=
    path_join project_path ["app"; "src"; "main"; "res"; "values"] in
  _ <- makedirs strings_dir ;;
  let app_name := app_name_of app_type in
  let strings_content := strings_head T +:+ app_name +:+ strings_tail T in
  let strings_path := path_join strings_dir ["strings.xml"] in
  write_file strings_path (Text strings_content).

Definition create_dummy_apk (project_path : string) : M unit :=
  let apk_dir :=
    path_join project_path ["app"; "build"; "outputs"; "apk"; "debug"] in
  _ <- makedirs apk_dir ;;
  let dummy_apk_path := path_join apk_dir ["app-debug.apk"] in
  write_file dummy_apk_path (Text dummy_content).

Definition generate_android_project
    (project_path app_type package_name : string) (features : list string)
  : M unit :=
  let src_dir := path_join project_path ["app"; "src"; "main"] in
  _ <- makedirs (path_join src_dir ("java" :: split_on "." package_name)) ;;
  _ <- makedirs (path_join src_dir ["res"; "layout"]) ;;
  _ <- makedirs (path_join src_dir ["res"; "values"]) ;;
  _ <- makedirs (path_join src_dir ["res"; "drawable"]) ;;
  _ <- generate_manifest project_path package_name app_type ;;
  _ <- generate_main_activity project_path package_name app_type features ;;
  _ <- generate_layouts project_path app_type ;;
  _ <- generate_build_gradle project_path package_name ;;
  _ <- generate_strings project_path app_type ;;
  create_dummy_apk project_path.

Definition set_status (s : string) (n : nat) (m : Metadata) : Metadata :=
  mkMetadata (id m) (Sys.app_type m) (Sys.package_name m) (Sys.features m)
    (description m) (created_at m) s n (apk_path m) (error m).

Definition set_apk_path (p : string) (m : Metadata) : Metadata :=
  mkMetadata (id m) (Sys.app_type m) (Sys.package_name m) (Sys.features m)
    (description m) (created_at m) (status m) (progress m) (Some p) (error m).

Definition set_error (s e : string) (m : Metadata) : Metadata :=
  mkMetadata (id m) (Sys.app_type m) (Sys.package_name m) (Sys.features m)
    (description m) (created_at m) s (progress m) (apk_path m) (Some e).

Definition metadata_path_of (project_path : string) : string :=
  path_join project_path ["metadata.json"].

Definition apk_path_of (project_path : string) : string :=
  path_join project_path
    ["app"; "build"; "outputs"; "apk"; "debug"; "app-debug.apk"].

Definition create_project
    (project_id app_type package_name : string) (features : list string)
    (description : string) : M string :=
  let project_path := path_join PROJECTS_DIR [project_id] in
  _ <- makedirs project_path ;;
  t <- now ;;
  let metadata :=
    mkMetadata project_id app_type package_name features description t
      "building" 0 None None in
  _ <- write_file (metadata_path_of project_path) (Json metadata) ;;
  _ <- generate_android_project project_path app_type package_name features ;;
  let metadata := set_status "generated" 50 metadata in
  _ <- write_file (metadata_path_of project_path) (Json metadata) ;;
  ret project_path.

(** The records a thread commits, in order: at creation, after scaffolding
    and after the build; [t] is the creation time. *)
Definition building_record
    (project_id : string) (analysis : Classifier.Analysis) (t : string)
  : Metadata :=
  mkMetadata project_id (Classifier.app_type analysis)
    (Classifier.package_name analysis) (Classifier.features analysis)
    EmptyString t "building" 0 None None.

Definition generated_record
    (project_id : string) (analysis : Classifier.Analysis) (t : string)
  : Metadata :=
  set_status "generated" 50 (building_record project_id analysis t).

Definition completed_record
    (project_id : string) (analysis : Classifier.Analysis) (t : string)
  : Metadata :=
  set_apk_path (apk_path_of (path_join PROJECTS_DIR [project_id]))
    (set_status "completed" 100 (generated_record project_id analysis t)).

(** The [try] block of [build_project_thread]. *)
Definition build_project_try
    (project_id : string) (analysis : Classifier.Analysis) : M unit :=
  project_path <-
    create_project project_id (Classifier.app_type analysis)
      (Classifier.package_name analysis) (Classifier.features analysis)
      EmptyString ;;
  let metadata_path := metadata_path_of project_path in
  found <- path_exists metadata_path ;;
  _ <- (if found : bool then
          metadata <- read_json metadata_path ;;
          let metadata := set_status "completed" 100 metadata in
          let metadata := set_apk_path (apk_path_of project_path) metadata in
          write_file metadata_path (Json metadata)
        else ret tt) ;;
  print "Project built successfully".

(** The [except Exception as e] block, [e] being [str(e)]. *)
Definition build_project_except (project_id e : string) : M unit :=
  _ <- print "Error building project" ;;
  let project_path := path_join PROJECTS_DIR [project_id] in
  let metadata_path := metadata_path_of project_path in
  found <- path_exists metadata_path ;;
  if found : bool then
    metadata <- read_json metadata_path ;;
    let metadata := set_error "error" e metadata in
    write_file metadata_path (Json metadata)
  else ret tt.

Definition build_project_thread
    (project_id : string) (analysis : Classifier.Analysis) : M unit :=
  try_except (build_project_try project_id analysis)
             (build_project_except project_id).

End WithEnvironment.

End Builder.

(** ** The request handlers and the background threads of [backend/app.py]

    A request handler runs to its end before the next event.  A thread
    started by [build_apk] is queued; the scheduler runs it at some later
    [RunThread] event, so any number of requests may be served between the
    response of [build_apk] and the first step of its thread. *)
Module Server.
Import Str OsPath Sys Builder.
Local Open Scope io_scope.

Inductive Body :=
| ErrorBody (error : string)
| BuildBody (status project_id : string) (analysis : Classifier.Analysis)
            (check_status download : string)
| StatusBody (metadata : Metadata) (apk_ready : bool) (apk_size : option nat).

Inductive Response :=
| JsonResponse (code : nat) (body : Body)
| FileResponse (path : string) (content : File) (download_name : string).

Record System := mkSystem {
  world : World;
  threads : list (string * Classifier.Analysis)
}.

(** [os.path.getsize(p)] of a text file; the size of other entries is not
    modelled. *)
Definition getsize (p : string) (w : World) : nat :=
  match files w !! p with
  | Some (Text content) => String.length content
  | _ => 0
  end.

(** [send_file(p, ...)]: the content of a regular file. *)
Definition send_file (p download_name : string) : M Response :=
  fun w => match files w !! p with
           | Some f => (Ok (FileResponse p f download_name), w)
           | None => (Raise "IsADirectoryError", w)
           end.

(** Flask answers an exception that leaves a handler with status 500. *)
Definition dispatch (handler : M Response) (w : World) : Response * World :=
  match handler w with
  | (Ok r, w') => (r, w')
  | (Raise _, w') => (JsonResponse 500 (ErrorBody "Internal server error"), w')
  end.

(** A Python string is true when it is not empty. *)
Definition truthy (o : option string) : option string :=
  match o with
  | Some EmptyString => None
  | _ => o
  end.

Section WithEnvironment.
Variable fault : nat -> option string.
Variable PROJECTS_DIR : string.
Variable T : Templates.

(** [POST /api/build]; [data] is the description of the request body, if
    any, and [uuid4] the text of the identifier drawn for this request. *)
Definition build_apk (data : option string) (uuid4 : string) (s : System)
  : Response * System :=
  match data with
  | None => (JsonResponse 400 (ErrorBody "Missing description"), s)
  | Some raw =>
      let description := strip raw in
      if String.length description <? 5 then
        (JsonResponse 400 (ErrorBody "Description too short"), s)
      else
        let project_id := truncate 8 uuid4 in
        let analysis := Classifier.analyze_description description in
        (JsonResponse 200
           (BuildBody "building" project_id analysis
              ("/api/project/" +:+ project_id)
              ("/api/download/" +:+ project_id)),
         mkSystem (world s) (threads s ++ [(project_id, analysis)]))
  end.

(** [GET /api/project/<project_id>] *)
Definition get_project_status (project_id : string) : M Response :=
  let project_path := path_join PROJECTS_DIR [project_id] in
  let metadata_path := metadata_path_of project_path in
  found <- path_exists metadata_path ;;
  if negb found then
    ret (JsonResponse 404 (ErrorBody "Project not found"))
  else
    try_except
      (metadata <- read_json fault metadata_path ;;
       match truthy (apk_path metadata) with
       | Some apk_path =>
           ready <- path_exists apk_path ;;
           if ready : bool then
             fun w => (Ok (JsonResponse 200
                             (StatusBody metadata true
                                (Some (getsize apk_path w)))), w)
           else ret (JsonResponse 200 (StatusBody metadata false None))
       | None => ret (JsonResponse 200 (StatusBody metadata false None))
       end)
      (fun e => ret (JsonResponse 500 (ErrorBody e))).

(** [GET /api/download/<project_id>] *)
Definition download_apk (project_id : string) : M Response :=
  let project_path := path_join PROJECTS_DIR [project_id] in
  let apk_path := apk_path_of project_path in
  let download_name := "rahl_" +:+ project_id +:+ ".apk" in
  found <- path_exists apk_path ;;
  if found : bool then send_file apk_path download_name
  else
    let metadata_path := metadata_path_of project_path in
    found <- path_exists metadata_path ;;
    sent <-
      (if found : bool then
         metadata <- read_json fault metadata_path ;;
         match truthy (Sys.apk_path metadata) with
         | Some fallback_apk =>
             ready <- path_exists fallback_apk ;;
             if ready : bool then
               r <- send_file fallback_apk download_name ;; ret (Some r)
             else ret None
         | None => ret None
         end
       else ret None) ;;
    match sent with
    | Some r => ret r
    | None => ret (JsonResponse 404 (ErrorBody "APK not found or not built yet"))
    end.

Inductive Event :=
| BuildRequest (data : option string) (uuid4 : string)
| StatusRequest (project_id : string)
| DownloadRequest (project_id : string)
| RunThread.

(** One event; [RunThread] runs the oldest queued thread to its end.  An
    exception that leaves a thread ends that thread only. *)
Definition step (s : System) (ev : Event) : option Response * System :=
  match ev with
  | BuildRequest data uuid4 =>
      let '(r, s') := build_apk data uuid4 s in (Some r, s')
  | StatusRequest project_id =>
      let '(r, w') := dispatch (get_project_status project_id) (world s) in
      (Some r, mkSystem w' (threads s))
  | DownloadRequest project_id =>
      let '(r, w') := dispatch (download_apk project_id) (world s) in
      (Some r, mkSystem w' (threads s))
  | RunThread =>
      match threads s with
      | [] => (None, s)
      | (project_id, analysis) :: rest =>
          let '(_, w') :=
            build_project_thread fault PROJECTS_DIR T project_id analysis
              (world s) in
          (None, mkSystem w' rest)
      end
  end.

Fixpoint run (s : System) (evs : list Event) : list (option Response) * System :=
  match evs with
  | [] => ([], s)
  | ev :: evs' =>
      let '(r, s') := step s ev in
      let '(rs, s'') := run s' evs' in
      (r :: rs, s'')
  end.

End WithEnvironment.

(** The server at start: no project, no thread. *)
Definition initial (clock : string) : System :=
  mkSystem (mkWorld ∅ ∅ [] 0 clock) [].

(** No system call fails. *)
Definition no_fault : nat -> option string := fun _ => None.

(** Exactly the [k]-th system call fails, with message [e]. *)
Definition one_fault (k : nat) (e : string) : nat -> option string :=
  fun n => if n =? k then Some e else None.

(** Short stand-ins for the template texts, for worked examples. *)
Definition sample_templates : Templates :=
  mkTemplates "<manifest package=" ">" "; // calculator" "; // webview"
    "; // todo" "; // welcome to " " app" "<calculator/>" "<styles/>"
    "<webview/>" "<todo/>" "<default/>" "namespace " " applicationId " " end"
    "plugins" "settings" "properties" "<string>" "</string>".

End Server.

(** ** The build invoker: [AndroidAPKBuilder] of [backend/build.py]

    The invoker changes the working directory of its process and runs the
    build tool as a subprocess.  The process is its working directory, an
    absolute path, and the disk: the entries with their absolute paths, as
    the directory listings yield them.  The build tool is a parameter: for
    a command, a working directory, the SDK root put into its environment
    and a disk, it says how the subprocess goes and what the disk is after
    it.  Project paths and build types are taken to hold no glob
    wildcard. *)
Module Invoker.
Import Str OsPath Sys.
Local Open Scope io_scope.

Record Entry := mkEntry {
  path : string;
  is_directory : bool;
  st_size : nat
}.

Record Process := mkProcess {
  cwd : string;
  disk : list Entry
}.

(** How the subprocess goes: [Popen] raises; reading its output raises;
    or it runs to its end, having printed [lines], with an exit code. *)
Inductive Spawn :=
| SpawnError (e : string)
| StreamError (e : string) (after : list Entry)
| Exited (lines : list string) (returncode : Z) (after : list Entry).

Inductive BuildResult :=
(** [{'success': True, 'apk_path': ..., 'apk_size': ..., 'output': ...}] *)
| Success (apk_path : string) (apk_size : nat) (output : string)
(** [{'success': False, 'error': ..., 'output': ...}], the output absent
    when an exception was caught *)
| Failure (error : string) (output : option string).

Definition newline : string := String (ascii_of_nat 10) EmptyString.

(** [s.endswith(suffix)] *)
Fixpoint endswith (suffix s : string) : bool :=
  String.eqb suffix s
  || match s with
     | EmptyString => false
     | String _ rest => endswith suffix rest
     end.

(** [s[len(prefix):]] when [s] starts with [prefix]. *)
Fixpoint strip_prefix (prefix s : string) : option string :=
  match prefix, s with
  | EmptyString, _ => Some s
  | String a prefix', String b s' =>
      if Ascii.eqb a b then strip_prefix prefix' s' else None
  | String _ _, EmptyString => None
  end.

(** [l[-n:]] *)
Definition last_n {A} (n : nat) (l : list A) : list A :=
  skipn (length l - n) l.

(** [str(n)] *)
Definition str_of_int (n : Z) : string :=
  NilZero.string_of_int (Z.to_int n).

(** The absolute path a path stands for in a working directory; a leading
    [./] is dropped. *)
Definition abspath (cwd p : string) : string :=
  join2 cwd (match strip_prefix "./" p with Some rest => rest | None => p end).

(** The entry of a disk at an absolute path. *)
Definition entry_of (abs : string) (d : list Entry) : option Entry :=
  find (fun e => String.eqb (path e) abs) d.

Definition directory_at (abs : string) (d : list Entry) : bool :=
  match entry_of abs d with
  | Some e => is_directory e
  | None => false
  end.

Definition entry_at (p : string) (ps : Process) : option Entry :=
  entry_of (abspath (cwd ps) p) (disk ps).

(** [os.path.lexists(p)] *)
Definition lexists (p : string) (ps : Process) : bool :=
  match entry_at p ps with
  | Some _ => true
  | None => false
  end.

(** [os.path.isdir(p)] *)
Definition isdir (p : string) (ps : Process) : bool :=
  directory_at (abspath (cwd ps) p) (disk ps).

(** [os.getcwd()]: fails when the working directory is gone. *)
Definition getcwd : St Process string :=
  fun ps => if isdir (cwd ps) ps then (Ok (cwd ps), ps)
            else (Raise "FileNotFoundError", ps).

(** [os.chdir(p)] *)
Definition chdir (p : string) : St Process unit :=
  fun ps => if isdir p ps then (Ok tt, mkProcess (abspath (cwd ps) p) (disk ps))
            else (Raise "FileNotFoundError", ps).

(** [os.path.exists(p)] *)
Definition path_exists (p : string) : St Process bool :=
  fun ps => (Ok (lexists p ps), ps).

(** [os.path.getsize(p)] *)
Definition getsize (p : string) : St Process nat :=
  fun ps => match entry_at p ps with
            | Some e => (Ok (st_size e), ps)
            | None => (Raise "FileNotFoundError", ps)
            end.

(** [glob.glob(p)] for a path without wildcard. *)
Definition glob_exact (p : string) (ps : Process) : list string :=
  if lexists p ps then [p] else [].

(** The name of an entry that lies directly in the directory [dir],
    which is given with its trailing slash. *)
Definition name_in (dir : string) (e : Entry) : option string :=
  match strip_prefix dir (path e) with
  | Some name => if contains "/" name then None else Some name
  | None => None
  end.

(** [glob.glob(os.path.join(dir, '*.apk'))]: the entries of [dir] whose
    name ends in [.apk] and does not start with a dot. *)
Definition glob_apk (dir : string) (ps : Process) : list string :=
  let here := join2 (abspath (cwd ps) dir) EmptyString in
  flat_map (fun e =>
              match name_in here e with
              | Some name =>
                  if endswith ".apk" name && negb (startswith "." name)
                  then [join2 dir name] else []
              | None => []
              end) (disk ps).

(** The [os.walk] loop: the files below [root] whose name ends in [.apk]. *)
Definition walk_apk (root : string) (ps : Process) : list string :=
  let here := join2 (abspath (cwd ps) root) EmptyString in
  flat_map (fun e =>
              match strip_prefix here (path e) with
              | Some rest =>
                  if negb (is_directory e) && endswith ".apk" rest
                  then [join2 root rest] else []
              | None => []
              end) (disk ps).

Definition _find_apk_file (project_path build_type : string) (ps : Process)
  : option string :=
  let candidates :=
    glob_exact (join2 project_path
                  ("app/build/outputs/apk/" +:+ build_type +:+ "/app-"
                   +:+ build_type +:+ ".apk")) ps
    ++ glob_apk (join2 project_path
                   ("app/build/outputs/apk/" +:+ build_type)) ps
    ++ glob_apk (join2 project_path ("build/outputs/apk/" +:+ build_type)) ps
    ++ walk_apk project_path ps in
  head candidates.

(** The disk a subprocess leaves. *)
Definition disk_after (outcome : Spawn) (before : list Entry) : list Entry :=
  match outcome with
  | SpawnError _ => before
  | StreamError _ after => after
  | Exited _ _ after => after
  end.

Section WithToolchain.
(** The external build tool. *)
Variable gradle : list string -> string -> option string -> list Entry -> Spawn.
(** [self.android_sdk_path] *)
Variable android_sdk_path : option string.

(** [subprocess.Popen(cmd, ...)], the loop over its output and
    [process.wait()]. *)
Definition run_process (cmd : list string) : St Process (list string * Z) :=
  fun ps => match gradle cmd (cwd ps) android_sdk_path (disk ps) with
            | SpawnError e => (Raise e, ps)
            | StreamError e after => (Raise e, mkProcess (cwd ps) after)
            | Exited lines returncode after =>
                (Ok (lines, returncode), mkProcess (cwd ps) after)
            end.

(** The command [build_apk] runs, decided in the project directory. *)
Definition gradle_command (build_type : string) (has_wrapper : bool)
  : list string :=
  let gradle_cmd := if has_wrapper then ["./gradlew"] else ["gradle"] in
  if String.eqb build_type "release" then gradle_cmd ++ ["assembleRelease"]
  else gradle_cmd ++ ["assembleDebug"].

(** The [try] block of [build_apk] after [original_dir = os.getcwd()]. *)
Definition build_apk_try (project_path build_type original_dir : string)
  : St Process BuildResult :=
  _ <- chdir project_path ;;
  has_wrapper <- path_exists "./gradlew" ;;
  let cmd := gradle_command build_type has_wrapper in
  ran <- run_process cmd ;;
  let build_output := map strip (fst ran) in
  let returncode := snd ran in
  _ <- chdir original_dir ;;
  if (returncode =? 0)%Z then
    fun ps =>
      match _find_apk_file project_path build_type ps with
      | Some apk_path =>
          (apk_size <- getsize apk_path ;;
           ret (Success apk_path apk_size
                  (join newline (last_n 20 build_output)))) ps
      | None =>
          (Ok (Failure "APK file not found after build"
                 (Some (join newline (last_n 20 build_output)))), ps)
      end
  else
    ret (Failure ("Build failed with exit code " +:+ str_of_int returncode)
           (Some (join newline (last_n 20 build_output)))).

(** [build_apk]: [try] / [except Exception] / [finally].  The [finally]
    clause changes back only when [original_dir] was assigned; an exception
    it raises replaces the result. *)
Definition build_apk (project_path build_type : string)
  : St Process BuildResult :=
  fun ps =>
    match getcwd ps with
    | (Raise e, ps') => (Ok (Failure e None), ps')
    | (Ok original_dir, ps') =>
        let '(r, ps'') :=
          try_except (build_apk_try project_path build_type original_dir)
                     (fun e => ret (Failure e None)) ps' in
        match chdir original_dir ps'' with
        | (Ok _, ps''') => (r, ps''')
        | (Raise e, ps''') => (Raise e, ps''')
        end
    end.

End WithToolchain.

End Invoker.

(** ** The archetype catalog and the analyze-only request of
    [backend/app.py] *)
Module Catalog.
Import Str Classifier.

(** An entry of [self.templates]; the icon is given by its code point. *)
Record Template := mkTemplate {
  name : string;
  description : string;
  icon : N;
  complexity : string
}.

(** [load_templates]: the dict, in insertion order. *)
Definition templates : list (string * Template) :=
  [ ("calculator",
     mkTemplate "Calculator" "A simple calculator app with basic operations"
       129518 "simple");
    ("webview",
     mkTemplate "WebView App" "An Android app that displays a website"
       127760 "simple");
    ("todo", mkTemplate "Todo List" "A simple todo list app" 9989 "medium");
    ("notes",
     mkTemplate "Notes App" "A note-taking application" 128221 "medium");
    ("weather",
     mkTemplate "Weather App" "A weather forecast application" 9925
       "advanced");
    ("game",
     mkTemplate "Simple Game" "A basic game like tic-tac-toe" 127918
       "advanced") ].

(** [self.templates.get(key)] *)
Definition templates_get (key : string) : option Template :=
  option_map snd (find (fun '(k, _) => String.eqb k key) templates).

(** The answer of [POST /api/analyze]: a status code and, when it is 200,
    the analysis, the stripped description and the suggested templates. *)
Definition analyze_request (data : option string)
  : nat * option (Analysis * string * list (option Template)) :=
  match data with
  | None => (400, None)
  | Some raw =>
      let description := strip raw in
      let analysis := analyze_description description in
      (200, Some (analysis, description, [templates_get (app_type analysis)]))
  end.

End Catalog.

(** ** The environment probe of [backend/build.py] *)
Module Toolchain.
Import Str OsPath Sys Invoker.

(** A Python value used as a condition: [None] and the empty string are
    false. *)
Definition truthy (o : option string) : bool :=
  match o with
  | Some (String _ _) => true
  | _ => false
  end.

(** [a or b] *)
Definition py_or (a b : option string) : option string :=
  if truthy a then a else b.

(** [AndroidAPKBuilder.__init__]: the argument, else the environment
    variable [ANDROID_SDK_PATH]. *)
Definition init_android_sdk_path (arg env_sdk : option string)
  : option string :=
  py_or arg env_sdk.

(** The locations [_check_android_sdk] tries, in order; [home] is the
    environment variable [HOME]. *)
Definition sdk_paths (android_sdk_path home : option string)
  : list (option string) :=
  [ android_sdk_path;
    Some (join2 (match home with Some h => h | None => EmptyString end)
                "Android/Sdk");
    Some "/usr/local/android-sdk";
    Some "C:\Android\Sdk" ].

(** The loop of [_check_android_sdk]: the first location that is set and
    exists. *)
Definition first_sdk (candidates : list (option string)) (ps : Process)
  : option string :=
  match find (fun o => truthy o
                       && match o with
                          | Some p => lexists p ps
                          | None => false
                          end) candidates with
  | Some o => o
  | None => None
  end.

(** [_check_android_sdk]: the answer and [self.android_sdk_path] after
    it. *)
Definition _check_android_sdk (android_sdk_path home : option string)
    (ps : Process) : bool * option string :=
  match first_sdk (sdk_paths android_sdk_path home) ps with
  | Some p => (true, Some p)
  | None => (false, android_sdk_path)
  end.

Section WithTools.
(** [subprocess.run(cmd, capture_output=True, text=True)]: the exit code,
    or [None] when the call raises. *)
Variable run : list string -> option Z.

Definition returned_zero (cmd : list string) : bool :=
  match run cmd with
  | Some returncode => (returncode =? 0)%Z
  | None => false
  end.

Definition _check_java : bool := returned_zero ["java"; "-version"].

Definition _check_gradle (ps : Process) : bool :=
  if lexists "./gradlew" ps then true
  else returned_zero ["gradle"; "--version"].

Record EnvironmentReport := mkReport {
  report_status : bool;
  checks : list (string * bool);
  message : string
}.

(** [check_environment]: the report and [self.android_sdk_path] after
    it. *)
Definition check_environment (android_sdk_path home : option string)
    (ps : Process) : EnvironmentReport * option string :=
  let java := _check_java in
  let '(sdk, android_sdk_path') :=
    _check_android_sdk android_sdk_path home ps in
  let gradle := _check_gradle ps in
  let checks := [("Java", java); ("Android SDK", sdk); ("Gradle", gradle)] in
  let status := forallb snd checks in
  (mkReport status checks
     (if status then "Environment ready" else "Missing Android build tools"),
   android_sdk_path').

End WithTools.

End Toolchain.

(** ** The first server, [app.py] at the root of the repository *)
Module Legacy.
Import Str.

(** [RahlBuilder.detect_app_type] *)
Definition detect_app_type (text : string) : string :=
  let text_lower := lower text in
  if contains "calculator" text_lower then "calculator"
  else if contains "note" text_lower || contains "todo" text_lower then "notes"
  else if contains "website" text_lower || contains "web" text_lower
       then "webview"
  else if contains "game" text_lower then "game"
  else "webview".

Record Template := mkTemplate {
  name : string;
  description : string;
  template_path : string
}.

(** [RahlBuilder.load_templates] *)
Definition templates : list (string * Template) :=
  [ ("webview",
     mkTemplate "WebView App" "Creates an Android app that displays a website"
       "templates/webview");
    ("calculator",
     mkTemplate "Calculator" "Simple calculator application"
       "templates/calculator");
    ("notes",
     mkTemplate "Notes App" "Note-taking application" "templates/notes") ].

(** [self.templates.get(key, default)] *)
Definition templates_get (key : string) (default : Template) : Template :=
  match find (fun '(k, _) => String.eqb k key) templates with
  | Some (_, t) => t
  | None => default
  end.

(** [self.templates['webview']] *)
Definition webview_template : Template :=
  mkTemplate "WebView App" "Creates an Android app that displays a website"
    "templates/webview".

(** The template [generate_project] copies for an app type:
    [self.templates.get(intent['app_type'], self.templates['webview'])]. *)
Definition template_for (app_type : string) : Template :=
  templates_get app_type webview_template.

End Legacy.

(** ** Facts about the string primitives *)
Module StrFacts.
Import Str.

Lemma append_cons c a b : String c a +:+ b = String c (a +:+ b).
Proof. reflexivity. Qed.

Lemma append_nil b : EmptyString +:+ b = b.
Proof. reflexivity. Qed.

Lemma map_chars_app f a b :
  map_chars f (a +:+ b) = map_chars f a +:+ map_chars f b.
Proof. induction a as [|c a IH]; simpl; [reflexivity | now rewrite IH]. Qed.

Lemma lower_app a b : lower (a +:+ b) = lower a +:+ lower b.
Proof. apply map_chars_app. Qed.

Lemma map_chars_fixed f s :
  all_chars (fun c => Ascii.eqb (f c) c) s = true -> map_chars f s = s.
Proof.
  induction s as [|c s IH]; simpl; [reflexivity |].
  intros H. apply andb_true_iff in H as [Hc Hs].
  apply Ascii.eqb_eq in Hc. now rewrite Hc, IH.
Qed.

Lemma all_chars_app p a b :
  all_chars p (a +:+ b) = all_chars p a && all_chars p b.
Proof. induction a as [|c a IH]; simpl; [reflexivity | now rewrite IH, andb_assoc]. Qed.

Lemma all_chars_impl (p q : ascii -> bool) s :
  (forall c, p c = true -> q c = true) ->
  all_chars p s = true -> all_chars q s = true.
Proof.
  intros Hpq. induction s as [|c s IH]; simpl; [reflexivity |].
  intros H. apply andb_true_iff in H as [Hc Hs].
  now rewrite (Hpq _ Hc), IH.
Qed.

Lemma all_chars_map_chars p f s :
  all_chars p (map_chars f s) = all_chars (fun c => p (f c)) s.
Proof. induction s as [|c s IH]; simpl; [reflexivity | now rewrite IH]. Qed.

Lemma all_chars_true p s : (forall c, p c = true) -> all_chars p s = true.
Proof. intros H. induction s as [|c s IH]; simpl; [reflexivity | now rewrite H, IH]. Qed.

(** Case analysis over the 256 characters. *)
Ltac by_cases_on_char c :=
  destruct c as [[] [] [] [] [] [] [] []]; vm_compute; reflexivity.

Lemma lower_char_idem c : lower_char (lower_char c) = lower_char c.
Proof. by_cases_on_char c. Qed.

Lemma lower_char_isspace c : isspace (lower_char c) = isspace c.
Proof. by_cases_on_char c. Qed.

Lemma isspace_lower_char_fixed c : isspace c = true -> lower_char c = c.
Proof. destruct c as [[] [] [] [] [] [] [] []]; vm_compute; congruence. Qed.

Lemma space_isspace c : Ascii.eqb c " " = true -> isspace c = true.
Proof. intros H. apply Ascii.eqb_eq in H. now subst c. Qed.

Lemma lower_idem s : lower (lower s) = lower s.
Proof.
  unfold lower. induction s as [|c s IH]; simpl; [reflexivity |].
  now rewrite lower_char_idem, IH.
Qed.

Lemma lower_fixed_chars s :
  all_chars (fun c => Ascii.eqb (lower_char c) c) (lower s) = true.
Proof.
  unfold lower. rewrite all_chars_map_chars. apply all_chars_true.
  intros c. apply Ascii.eqb_eq, lower_char_idem.
Qed.

(** *** Substring search *)

Lemma startswith_app_r k s b :
  startswith k s = true -> startswith k (s +:+ b) = true.
Proof.
  revert s. induction k as [|a k IH]; intros [|c s]; simpl; try congruence.
  intros H. apply andb_true_iff in H as [Ha Hk].
  now rewrite Ha, (IH _ Hk).
Qed.

Lemma startswith_self_app k b : startswith k (k +:+ b) = true.
Proof.
  induction k as [|a k IH]; simpl; [reflexivity |].
  now rewrite Ascii.eqb_refl, IH.
Qed.

Lemma contains_cons k c s :
  contains k (String c s) = startswith k (String c s) || contains k s.
Proof. reflexivity. Qed.

Lemma contains_app_r k s b :
  contains k s = true -> contains k (s +:+ b) = true.
Proof.
  induction s as [|c s IH].
  - destruct k; [destruct b; reflexivity | discriminate].
  - change (String c s +:+ b) with (String c (s +:+ b)).
    rewrite !contains_cons. intros H. apply orb_true_iff in H as [H|H].
    + pose proof (startswith_app_r k (String c s) b H) as H'.
      change (String c s +:+ b) with (String c (s +:+ b)) in H'.
      now rewrite H'.
    + rewrite (IH H). apply orb_true_r.
Qed.

Lemma contains_app_l k a s :
  contains k s = true -> contains k (a +:+ s) = true.
Proof.
  intros H. induction a as [|c a IH]; [exact H |].
  change (String c a +:+ s) with (String c (a +:+ s)).
  rewrite contains_cons, IH. apply orb_true_r.
Qed.

Lemma contains_startswith k s : startswith k s = true -> contains k s = true.
Proof. intros H. destruct s; simpl; now rewrite H. Qed.

Lemma append_empty_r s : s +:+ EmptyString = s.
Proof. induction s as [|c s IH]; [reflexivity | now rewrite append_cons, IH]. Qed.

Lemma contains_self_app_l k a : contains k (a +:+ k) = true.
Proof.
  apply contains_app_l, contains_startswith.
  rewrite <- (append_empty_r k) at 2. apply startswith_self_app.
Qed.

(** A match puts the first character of the keyword into the text. *)
Lemma contains_first_char p c k s :
  all_chars p s = true -> p c = false -> contains (String c k) s = false.
Proof.
  intros Hs Hc. induction s as [|x s IH]; [reflexivity |].
  simpl in Hs. apply andb_true_iff in Hs as [Hx Hs].
  rewrite contains_cons, (IH Hs), orb_false_r. simpl.
  destruct (Ascii.eqb c x) eqn:E; [| reflexivity].
  apply Ascii.eqb_eq in E. congruence.
Qed.

(** *** Splitting and stripping *)

Lemma split_tokens p s :
  all_chars p s = true ->
  Forall (fun w => all_chars p w = true) (split s).
Proof.
  induction s as [|c s IH]; simpl; [constructor |].
  intros H. apply andb_true_iff in H as [Hc Hs]. specialize (IH Hs).
  destruct (isspace c); [exact IH |].
  destruct (starts_with_space s).
  - constructor; [simpl; now rewrite Hc | exact IH].
  - destruct (split s) as [|w ws].
    + constructor; [simpl; now rewrite Hc | constructor].
    + inversion IH; subst. constructor; [simpl; now rewrite Hc | assumption].
Qed.

Lemma split_tokens_nonspace s :
  Forall (fun w => all_chars (fun c => negb (isspace c)) w = true) (split s).
Proof.
  induction s as [|c s IH]; simpl; [constructor |].
  destruct (isspace c) eqn:Ec; [exact IH |].
  destruct (starts_with_space s).
  - constructor; [simpl; now rewrite Ec | exact IH].
  - destruct (split s) as [|w ws].
    + constructor; [simpl; now rewrite Ec | constructor].
    + inversion IH; subst. constructor; [simpl; now rewrite Ec | assumption].
Qed.

Lemma split_all_space s : all_chars isspace s = true -> split s = [].
Proof.
  induction s as [|c s IH]; simpl; [reflexivity |].
  intros H. apply andb_true_iff in H as [Hc Hs]. now rewrite Hc, IH.
Qed.

Lemma lstrip_empty s : lstrip s = EmptyString -> all_chars isspace s = true.
Proof.
  induction s as [|c s IH]; simpl; [reflexivity |].
  destruct (isspace c); [exact IH | discriminate].
Qed.

Lemma rstrip_empty s : rstrip s = EmptyString -> all_chars isspace s = true.
Proof.
  induction s as [|c s IH]; simpl; [reflexivity |].
  destruct (rstrip s) eqn:E; [| discriminate].
  destruct (isspace c); [intros _; now apply IH | discriminate].
Qed.

Lemma lstrip_suffix_space s :
  all_chars isspace (lstrip s) = true -> all_chars isspace s = true.
Proof.
  induction s as [|c s IH]; simpl; [reflexivity |].
  destruct (isspace c) eqn:Ec; [exact IH |].
  simpl. now rewrite Ec.
Qed.

Lemma strip_empty_iff s :
  strip s = EmptyString <-> all_chars isspace s = true.
Proof.
  unfold strip. split.
  - intros H. apply lstrip_suffix_space, rstrip_empty, H.
  - intros H. assert (Hl : lstrip s = EmptyString).
    { induction s as [|c s IH]; simpl; [reflexivity |].
      simpl in H. apply andb_true_iff in H as [Hc Hs]. now rewrite Hc, IH. }
    now rewrite Hl.
Qed.

(** *** Joining and slicing *)

Lemma all_chars_join p sep ws :
  all_chars p sep = true ->
  Forall (fun w => all_chars p w = true) ws ->
  all_chars p (join sep ws) = true.
Proof.
  intros Hsep Hws. induction Hws as [|w ws Hw Hws IH]; [reflexivity |].
  destruct ws as [|w' ws']; [exact Hw |].
  change (join sep (w :: w' :: ws')) with (w +:+ sep +:+ join sep (w' :: ws')).
  now rewrite !all_chars_app, Hw, Hsep, IH.
Qed.

Lemma length_truncate n s : String.length (truncate n s) <= n.
Proof.
  revert s. induction n as [|n IH]; intros [|c s]; simpl; try lia.
  specialize (IH s). lia.
Qed.

Lemma truncate_all_chars p n s :
  all_chars p s = true -> all_chars p (truncate n s) = true.
Proof.
  revert s. induction n as [|n IH]; intros [|c s]; simpl; try reflexivity.
  intros H. apply andb_true_iff in H as [Hc Hs]. now rewrite Hc, IH.
Qed.

Lemma startswith_truncate k s n :
  String.length k <= n -> startswith k (truncate n (k +:+ s)) = true.
Proof.
  revert n. induction k as [|a k IH]; intros n Hn; [reflexivity |].
  simpl in Hn. destruct n as [|n]; [lia |].
  simpl. rewrite Ascii.eqb_refl. apply IH. lia.
Qed.

End StrFacts.

(** ** Facts about the classifier *)
Module ClassifierFacts.
Import Str StrFacts Classifier.

(** *** Archetype selection *)

Lemma scan_keywords_snoc d kws t kw a :
  scan_keywords d (kws ++ [(t, kw)]) a
  = if hit d kw then t else scan_keywords d kws a.
Proof. unfold scan_keywords. now rewrite fold_left_app. Qed.

(** The loop keeps the last entry with a hit. *)
Lemma scan_keywords_last d kws a :
  scan_keywords d kws a
  = match find (fun '(_, kw) => hit d kw) (rev kws) with
    | Some (t, _) => t
    | None => a
    end.
Proof.
  induction kws as [|[t kw] kws IH] using rev_ind; [reflexivity |].
  rewrite scan_keywords_snoc, rev_app_distr. simpl.
  destruct (hit d kw); [reflexivity | exact IH].
Qed.

Lemma scan_keywords_no_hit d kws a :
  (forall x, In x kws -> hit d (snd x) = false) -> scan_keywords d kws a = a.
Proof.
  revert a. induction kws as [|[t kw] kws IH]; intros a H; [reflexivity |].
  pose proof (H (t, kw) (or_introl eq_refl)) as E. simpl in E.
  unfold scan_keywords. simpl. rewrite E.
  apply IH. intros x Hx. apply H. now right.
Qed.

(** An archetype with a hit is returned when no later archetype has one. *)
Lemma detect_app_type_no_later_hit d before t kw after :
  keywords = before ++ (t, kw) :: after ->
  hit d kw = true ->
  (forall x, In x after -> hit d (snd x) = false) ->
  detect_app_type d = t.
Proof.
  intros Hk Hhit Hafter. unfold detect_app_type. rewrite Hk.
  unfold scan_keywords. rewrite fold_left_app. simpl. rewrite Hhit.
  now apply scan_keywords_no_hit.
Qed.

(** *** Feature extraction *)

Lemma extract_features_filter s :
  extract_features s
  = map fst (List.filter (fun x => hit s (snd x)) feature_table).
Proof.
  unfold extract_features, feature_table, hit. simpl.
  destruct (contains "dark" s), (contains "dark mode" s),
    (contains "notification" s), (contains "database" s),
    (contains "store" s), (contains "save" s), (contains "share" s),
    (contains "login" s), (contains "sign in" s); reflexivity.
Qed.

Lemma filter_sublist {A} (f : A -> bool) (l : list A) :
  sublist (List.filter f l) l.
Proof.
  induction l as [|x l IH]; simpl; [constructor |].
  destruct (f x); now constructor.
Qed.

Lemma extract_features_ordered s :
  sublist (extract_features s) (map fst feature_table).
Proof.
  rewrite extract_features_filter.
  apply (fmap_sublist fst), filter_sublist.
Qed.

Lemma hit_extend d kws a b :
  hit d kws = true -> hit (a +:+ d +:+ b) kws = true.
Proof.
  unfold hit. rewrite !existsb_exists. intros [k [Hin Hk]].
  exists k. split; [exact Hin |].
  now apply contains_app_l, contains_app_r.
Qed.

Lemma hit_keyword_appended d kws k :
  In k kws -> hit (d +:+ k) kws = true.
Proof.
  intros Hin. unfold hit. apply existsb_exists. exists k.
  split; [exact Hin | apply contains_self_app_l].
Qed.

Lemma in_extract_features s f :
  In f (extract_features s)
  <-> exists kws, In (f, kws) feature_table /\ hit s kws = true.
Proof.
  rewrite extract_features_filter, in_map_iff. split.
  - intros [[f' kws] [Hf Hin]]. simpl in Hf. subst f'.
    apply filter_In in Hin as [Hin Hhit]. now exists kws.
  - intros [kws [Hin Hhit]]. exists (f, kws). split; [reflexivity |].
    apply filter_In. now split.
Qed.

Lemma feature_keywords_lower k : In k feature_keywords -> lower k = k.
Proof.
  intros H. vm_compute in H.
  repeat (destruct H as [H|H]; [subst k; vm_compute; reflexivity |]).
  destruct H.
Qed.

(** *** Blank descriptions *)

Lemma blank_lower s :
  all_chars isspace s = true -> all_chars isspace (lower s) = true.
Proof.
  intros H. unfold lower. rewrite all_chars_map_chars.
  revert H. apply all_chars_impl. intros c Hc. now rewrite lower_char_isspace.
Qed.

End ClassifierFacts.

(** ** Facts about paths *)
Module PathFacts.
Import Str StrFacts OsPath.

Lemma last_char_cons c s :
  s <> EmptyString -> last_char (String c s) = last_char s.
Proof. destruct s; [congruence | reflexivity]. Qed.

Lemma last_char_app a b :
  b <> EmptyString -> last_char (a +:+ b) = last_char b.
Proof.
  intros Hb. induction a as [|c a IH]; [reflexivity |].
  rewrite append_cons, last_char_cons; [exact IH |].
  destruct a; [exact Hb | discriminate].
Qed.

(** Joining keeps the end of the last component. *)
Lemma last_char_join2 a b :
  b <> EmptyString -> last_char (join2 a b) = last_char b.
Proof.
  intros Hb. unfold join2.
  destruct (startswith "/" b); [reflexivity |].
  destruct (match a with EmptyString => true | _ => endswith_sep a end).
  - now apply last_char_app.
  - rewrite last_char_app; [now apply last_char_app |].
    destruct b; [congruence | discriminate].
Qed.

Lemma path_join_snoc a p b : path_join a (p ++ [b]) = join2 (path_join a p) b.
Proof. unfold path_join. now rewrite fold_left_app. Qed.

Lemma length_append a b :
  String.length (a +:+ b) = String.length a + String.length b.
Proof. induction a as [|c a IH]; [reflexivity |]. rewrite append_cons. simpl. now rewrite IH. Qed.

(** A path joined with a relative component is not the path itself. *)
Lemma join2_relative_neq a b :
  startswith "/" b = false -> b <> EmptyString -> join2 a b <> a.
Proof.
  intros Hrel Hb E. apply (f_equal String.length) in E. revert E.
  unfold join2. rewrite Hrel.
  assert (0 < String.length b) by (destruct b; [congruence | simpl; lia]).
  destruct (match a with EmptyString => true | _ => endswith_sep a end);
    rewrite !length_append; simpl; lia.
Qed.

Lemma last_char_differ p q : last_char p <> last_char q -> p <> q.
Proof. congruence. Qed.

End PathFacts.

(** Rewrites the last character of a joined path to that of its last
    component, a literal. *)
Ltac last_char_of_join :=
  unfold Builder.metadata_path_of, Builder.apk_path_of, OsPath.path_join;
  cbn [fold_left];
  rewrite ?PathFacts.last_char_join2 by discriminate.

(** Two paths whose last characters differ. *)
Ltac path_neq :=
  let E := fresh "E" in
  intros E; apply (f_equal OsPath.last_char) in E; revert E;
  last_char_of_join;
  repeat match goal with
         | H : OsPath.last_char _ = Some _ |- _ => rewrite H
         end;
  discriminate.

(** ** Facts about the effect monad *)
Module SysFacts.
Import Str OsPath Sys.

Lemma history_log_write p q f w :
  history p (log_write q f w)
  = if String.eqb q p then history p w ++ [f] else history p w.
Proof.
  unfold history, log_write. simpl.
  destruct (String.eqb q p); reflexivity.
Qed.

Lemma history_tick p w : history p (tick w) = history p w.
Proof. reflexivity. Qed.

Lemma bind_ok {A B} (c : M A) (k : A -> M B) w b w' :
  bind c k w = (Ok b, w') ->
  exists a w1, c w = (Ok a, w1) /\ k a w1 = (Ok b, w').
Proof.
  unfold bind. destruct (c w) as [[a|e] w1]; [eauto | discriminate].
Qed.

Lemma syscall_raise fault {A} (op : World -> Result A * World) w e :
  fault (ticks w) = Some e -> syscall fault op w = (Raise e, tick w).
Proof. intros H. unfold syscall. now rewrite H. Qed.

Lemma syscall_run fault {A} (op : World -> Result A * World) w :
  fault (ticks w) = None -> syscall fault op w = op (tick w).
Proof. intros H. unfold syscall. now rewrite H. Qed.

(** *** Computations that write the same files whatever the world

    [replay js m] performs the writes [js], newest first, on the files
    [m].  A computation, given for every fault oracle, is uniform when its
    successful runs all perform one fixed list of writes and create one
    fixed set of directories. *)
Definition replay (js : list (string * File)) (m : gmap string File)
  : gmap string File :=
  fold_right (fun x acc => <[x.1 := x.2]> acc) m js.

Definition latest (p : string) (js : list (string * File)) : option File :=
  option_map snd (find (fun x => String.eqb x.1 p) js).

Lemma replay_lookup js m p :
  replay js m !! p = match latest p js with Some f => Some f | None => m !! p end.
Proof.
  unfold latest. induction js as [|[q f] js IH]; [reflexivity |].
  simpl. destruct (String.eqb_spec q p) as [->|Hne].
  - apply lookup_insert_eq.
  - rewrite lookup_insert_ne by exact Hne. exact IH.
Qed.

Lemma replay_app js1 js2 m : replay (js1 ++ js2) m = replay js1 (replay js2 m).
Proof. unfold replay. apply fold_right_app. Qed.

Lemma replay_idem js m : replay js (replay js m) = replay js m.
Proof.
  apply map_eq. intros p. rewrite !replay_lookup.
  now destruct (latest p js).
Qed.

Lemma latest_in p f js : In (p, f) js -> exists g, latest p js = Some g.
Proof.
  unfold latest. induction js as [|[q g] js IH]; [intros [] |].
  intros [[= -> ->] | Hin]; simpl.
  - rewrite String.eqb_refl. eauto.
  - destruct (String.eqb q p); [eauto | now apply IH].
Qed.

(** A file written by [js] has the same content whatever was there. *)
Lemma replay_written p f js m m' :
  In (p, f) js -> replay js m !! p = replay js m' !! p.
Proof.
  intros Hin. rewrite !replay_lookup.
  now destruct (latest_in _ _ _ Hin) as [g ->].
Qed.

Definition uniform {A} (c : (nat -> option string) -> M A) : Prop :=
  exists js ds n a,
    forall fault w a' w',
      c fault w = (Ok a', w') ->
      a' = a
      /\ w' = mkWorld (replay js (files w)) (dirs w ∪ ds) (js ++ journal w)
                 (n + ticks w) (clock w).

Lemma uniform_ret {A} (a : A) : uniform (fun _ => ret a).
Proof.
  exists [], ∅, 0, a. intros fault w a' w' [= <- <-]. split; [reflexivity |].
  destruct w. simpl. f_equal. now rewrite union_empty_r_L.
Qed.

Lemma uniform_bind {A B} (c : (nat -> option string) -> M A)
    (k : (nat -> option string) -> A -> M B) :
  uniform c -> (forall a, uniform (fun fault => k fault a)) ->
  uniform (fun fault => bind (c fault) (k fault)).
Proof.
  intros (js1 & ds1 & n1 & a1 & Hc) Hk.
  destruct (Hk a1) as (js2 & ds2 & n2 & b & Hk1).
  exists (js2 ++ js1), (ds1 ∪ ds2), (n2 + n1), b.
  intros fault w b' w' H.
  apply bind_ok in H as (a & w1 & H1 & H2).
  apply Hc in H1 as [-> ->]. apply Hk1 in H2 as [-> ->].
  split; [reflexivity |]. simpl.
  f_equal; [now rewrite replay_app | now rewrite (assoc_L (∪))
           | now rewrite <- app_assoc | lia].
Qed.

Lemma uniform_makedirs p : uniform (fun fault => makedirs fault p).
Proof.
  exists [], {[p]}, 1, tt. intros fault w [] w' H.
  unfold makedirs, syscall in H. destruct (fault (ticks w)); [discriminate |].
  injection H as <-. now split.
Qed.

Lemma uniform_write_file p f : uniform (fun fault => write_file fault p f).
Proof.
  exists [(p, f)], ∅, 1, tt. intros fault w [] w' H.
  unfold write_file, syscall in H. destruct (fault (ticks w)); [discriminate |].
  injection H as <-. split; [reflexivity |].
  unfold log_write, set_files, tick. simpl. f_equal.
  now rewrite union_empty_r_L.
Qed.

Section Quiet.
Variable fault : nat -> option string.
Variable mp : string.

(** A computation that leaves the file at [mp] alone and raises only what
    the oracle makes it raise. *)
Definition quiet {A} (c : M A) : Prop :=
  forall w,
    match c w with
    | (Ok _, w') =>
        clock w' = clock w
        /\ files w' !! mp = files w !! mp
        /\ history mp w' = history mp w
        /\ ticks w <= ticks w'
        /\ (forall i, ticks w <= i < ticks w' -> fault i = None)
    | (Raise e, w') =>
        clock w' = clock w
        /\ files w' !! mp = files w !! mp
        /\ history mp w' = history mp w
        /\ exists j, ticks w <= j /\ ticks w' = S j /\ fault j = Some e
                     /\ (forall i, ticks w <= i < j -> fault i = None)
    end.

Lemma quiet_ret {A} (a : A) : quiet (ret a).
Proof. intros w. simpl. split_and!; [done | done | done | lia | intros i Hi; lia]. Qed.

Lemma quiet_bind {A B} (c : M A) (k : A -> M B) :
  quiet c -> (forall a, quiet (k a)) -> quiet (bind c k).
Proof.
  intros Hc Hk w. unfold bind. specialize (Hc w).
  destruct (c w) as [[a|e] w1]; [| exact Hc].
  destruct Hc as (Hc & Hf & Hh & Ht & Hn). specialize (Hk a w1).
  destruct (k a w1) as [[b|e] w2].
  - destruct Hk as (Hc' & Hf' & Hh' & Ht' & Hn').
    split_and!; [congruence | congruence | congruence | lia |].
    intros i Hi. destruct (Nat.lt_ge_cases i (ticks w1));
      [apply Hn | apply Hn']; lia.
  - destruct Hk as (Hc' & Hf' & Hh' & j & Hj & Hj' & Hfj & Hn').
    split_and!; [congruence | congruence | congruence |].
    exists j. split_and!; [lia | exact Hj' | exact Hfj |].
    intros i Hi. destruct (Nat.lt_ge_cases i (ticks w1));
      [apply Hn | apply Hn']; lia.
Qed.

Lemma quiet_makedirs p : quiet (makedirs fault p).
Proof.
  intros w. unfold makedirs, syscall.
  destruct (fault (ticks w)) as [e|] eqn:E; simpl.
  - split_and!; try done. exists (ticks w).
    split_and!; [lia | done | exact E | intros i Hi; lia].
  - split_and!; try done; [lia |].
    intros i Hi. replace i with (ticks w) by lia. exact E.
Qed.

Lemma quiet_write_file p f : p <> mp -> quiet (write_file fault p f).
Proof.
  intros Hp w. unfold write_file, syscall.
  destruct (fault (ticks w)) as [e|] eqn:E; simpl.
  - split_and!; try done. exists (ticks w).
    split_and!; [lia | done | exact E | intros i Hi; lia].
  - split_and!; [done | now apply lookup_insert_ne | | lia |].
    + rewrite history_log_write.
      destruct (String.eqb p mp) eqn:Eq; [| reflexivity].
      apply String.eqb_eq in Eq. contradiction.
    + intros i Hi. replace i with (ticks w) by lia. exact E.
Qed.

End Quiet.

End SysFacts.

(** ** Facts about the builder *)
Module BuilderFacts.
Import Str OsPath Sys Builder PathFacts SysFacts.

Ltac uniform_steps :=
  repeat first
    [ apply uniform_ret
    | apply uniform_makedirs
    | apply uniform_write_file
    | apply (uniform_bind (A:=unit)); [| intros ?]
    | apply (uniform_bind (A:=string)); [| intros ?]
    | match goal with
      | |- uniform (fun _ => if ?b then _ else _) => destruct b
      end ].

(** Scaffolding writes a list of files, with contents, that depends on the
    project path, the app type and the package name only. *)
Lemma generate_android_project_uniform T pp at_ pkg feats :
  uniform (fun fault => generate_android_project fault T pp at_ pkg feats).
Proof.
  unfold generate_android_project, generate_manifest, generate_main_activity,
    generate_layouts, generate_build_gradle, generate_strings, create_dummy_apk.
  uniform_steps.
Qed.

Section WithEnvironment.
Variable fault : nat -> option string.
Variable PROJECTS_DIR : string.
Variable T : Templates.

Lemma metadata_path_last project_path :
  last_char (metadata_path_of project_path) = Some "n"%char.
Proof. last_char_of_join. reflexivity. Qed.

Lemma apk_path_last project_path :
  last_char (apk_path_of project_path) = Some "k"%char.
Proof. last_char_of_join. reflexivity. Qed.

(** Closes the arithmetic and equational leaves of a case analysis. *)
Ltac leaf := solve [ done | congruence | simpl in *; lia ].

Ltac quiet_steps :=
  repeat first
    [ apply quiet_ret
    | apply quiet_makedirs
    | apply quiet_write_file; path_neq
    | apply quiet_bind; [| intros ?]
    | match goal with
      | |- quiet _ _ (if ?b then _ else _) => destruct b
      end ].

(** Scaffolding never touches a path that ends like [metadata.json]. *)
Lemma generate_android_project_quiet mp pp at_ pkg feats :
  last_char mp = Some "n"%char ->
  quiet fault mp (generate_android_project fault T pp at_ pkg feats).
Proof.
  intros Hmp.
  unfold generate_android_project, generate_manifest, generate_main_activity,
    generate_layouts, generate_build_gradle, generate_strings, create_dummy_apk.
  quiet_steps.
Qed.

Lemma exists_at_file p w f : files w !! p = Some f -> exists_at p w = true.
Proof.
  intros H. unfold exists_at. rewrite H.
  rewrite bool_decide_eq_true_2; [reflexivity | eauto].
Qed.

Lemma exists_at_none p w :
  files w !! p = None -> p ∉ dirs w -> exists_at p w = false.
Proof.
  intros H Hd. unfold exists_at. rewrite H.
  rewrite bool_decide_eq_false_2 by (intros [? ?]; discriminate).
  now rewrite bool_decide_eq_false_2.
Qed.

Lemma makedirs_ok p w u w' :
  makedirs fault p w = (Ok u, w') ->
  w' = set_dirs (fun d => d ∪ {[p]}) (tick w).
Proof.
  unfold makedirs, syscall. destruct (fault (ticks w)); [discriminate |].
  now intros [= _ <-].
Qed.

Lemma write_file_ok p f w u w' :
  write_file fault p f w = (Ok u, w') ->
  w' = log_write p f (set_files (insert p f) (tick w)).
Proof.
  unfold write_file, syscall. destruct (fault (ticks w)); [discriminate |].
  now intros [= _ <-].
Qed.

(** Successful scaffolding leaves the stub artifact at the conventional
    build-output path. *)
Lemma generate_android_project_stub pp at_ pkg feats w u w' :
  generate_android_project fault T pp at_ pkg feats w = (Ok u, w') ->
  files w' !! apk_path_of pp = Some (Text dummy_content).
Proof.
  unfold generate_android_project. intros H.
  do 9 (apply bind_ok in H as (? & ? & _ & H)).
  unfold create_dummy_apk in H.
  apply bind_ok in H as (? & ? & _ & H).
  apply write_file_ok in H. subst w'. apply lookup_insert_eq.
Qed.

(** The state [create_project] returns in: the record says [generated],
    the stub artifact is on disk. *)
Lemma create_project_ok project_id at_ pkg feats desc w p w' :
  create_project fault PROJECTS_DIR T project_id at_ pkg feats desc w
  = (Ok p, w') ->
  let pp := path_join PROJECTS_DIR [project_id] in
  p = pp
  /\ (exists m, files w' !! metadata_path_of pp = Some (Json m)
                /\ status m = "generated" /\ progress m = 50
                /\ apk_path m = None)
  /\ files w' !! apk_path_of pp = Some (Text dummy_content).
Proof.
  intros H. cbv zeta. unfold create_project in H.
  set (pp := path_join PROJECTS_DIR [project_id]) in *.
  apply bind_ok in H as (? & w1 & _ & H).
  apply bind_ok in H as (t & w2 & _ & H).
  apply bind_ok in H as (? & w3 & _ & H).
  apply bind_ok in H as (? & w4 & Hgen & H).
  apply bind_ok in H as (? & w5 & Hw & H).
  injection H as <- <-. apply write_file_ok in Hw. subst w5.
  apply generate_android_project_stub in Hgen.
  split_and!; [reflexivity | |].
  - eexists. split; [apply lookup_insert_eq |]. now split_and!.
  - cbn [files log_write set_files]. rewrite lookup_insert_ne; [exact Hgen |].
    pose proof (apk_path_last pp) as Hk. path_neq.
Qed.

Section Thread.
Variable project_id : string.
Variable analysis : Classifier.Analysis.

Let pp := path_join PROJECTS_DIR [project_id].
Let mp := metadata_path_of pp.

(** The except block when a record exists: it rewrites the record as an
    error, unless the read or the write fails. *)
Lemma except_with_record e m w :
  files w !! mp = Some (Json m) ->
  match build_project_except fault PROJECTS_DIR project_id e w with
  | (Ok _, w') =>
      fault (ticks w) = None /\ fault (S (ticks w)) = None
      /\ files w' !! mp = Some (Json (set_error "error" e m))
      /\ history mp w' = history mp w ++ [Json (set_error "error" e m)]
      /\ ticks w' = S (S (ticks w))
  | (Raise _, w') =>
      files w' !! mp = Some (Json m)
      /\ history mp w' = history mp w
      /\ exists j, ticks w <= j /\ j < ticks w' /\ fault j <> None
  end.
Proof.
  intros Hm. unfold build_project_except, print, bind, ret, path_exists.
  fold pp. fold mp. rewrite (exists_at_file _ _ _ Hm).
  unfold read_json, write_file, syscall.
  destruct (fault (ticks w)) as [e1|] eqn:E1; simpl.
  { split_and!; [exact Hm | reflexivity |]. exists (ticks w).
    split_and!; [lia | lia | congruence]. }
  rewrite Hm. change (ticks (tick w)) with (S (ticks w)).
  destruct (fault (S (ticks w))) as [e2|] eqn:E2; simpl.
  { split_and!; [exact Hm | reflexivity |]. exists (S (ticks w)).
    split_and!; [lia | lia | congruence]. }
  split_and!; try reflexivity.
  - apply lookup_insert_eq.
  - rewrite history_log_write, String.eqb_refl. reflexivity.
Qed.

(** The except block when there is no record: nothing is written. *)
Lemma except_without_record e w :
  files w !! mp = None ->
  match build_project_except fault PROJECTS_DIR project_id e w with
  | (r, w') =>
      files w' !! mp = None /\ history mp w' = history mp w
      /\ ticks w <= ticks w'
      /\ (mp ∉ dirs w -> r = Ok tt /\ ticks w' = ticks w)
  end.
Proof.
  intros Hm. unfold build_project_except, print, bind, ret, path_exists.
  fold pp. fold mp.
  destruct (exists_at mp w) eqn:Ex.
  - unfold read_json, syscall.
    destruct (fault (ticks w)) as [e1|] eqn:E1; simpl.
    + split_and!; [exact Hm | reflexivity | lia |].
      intros Hd. rewrite (exists_at_none _ _ Hm Hd) in Ex. discriminate.
    + rewrite Hm. simpl. split_and!; [exact Hm | reflexivity | lia |].
      intros Hd. rewrite (exists_at_none _ _ Hm Hd) in Ex. discriminate.
  - simpl. split_and!; [exact Hm | reflexivity | lia | auto].
Qed.

Let t_building (w : World) := building_record project_id analysis (clock w).
Let t_generated (w : World) := generated_record project_id analysis (clock w).

Lemma metadata_path_neq_project : mp <> pp.
Proof. apply join2_relative_neq; [reflexivity | discriminate]. Qed.

(** [create_project] on a project that has no record yet. *)
Lemma create_project_outcome w :
  files w !! mp = None ->
  match create_project fault PROJECTS_DIR T project_id
          (Classifier.app_type analysis) (Classifier.package_name analysis)
          (Classifier.features analysis) EmptyString w with
  | (Ok p, w') =>
      p = pp /\ clock w' = clock w
      /\ files w' !! mp = Some (Json (t_generated w))
      /\ history mp w' = history mp w ++ [Json (t_building w); Json (t_generated w)]
      /\ S (S (ticks w)) < ticks w'
      /\ (forall i, ticks w <= i < ticks w' -> fault i = None)
  | (Raise e, w') =>
      clock w' = clock w
      /\ exists j, ticks w <= j /\ ticks w' = S j /\ fault j = Some e
         /\ (forall i, ticks w <= i < j -> fault i = None)
         /\ ((j <= S (ticks w) /\ files w' !! mp = None
              /\ history mp w' = history mp w
              /\ (mp ∉ dirs w -> mp ∉ dirs w'))
             \/ (S (ticks w) < j /\ files w' !! mp = Some (Json (t_building w))
                 /\ history mp w' = history mp w ++ [Json (t_building w)]))
  end.
Proof.
  intros Hnone. unfold create_project. fold pp. fold mp.
  unfold bind at 1. unfold makedirs at 1.
  destruct (fault (ticks w)) as [e0|] eqn:E0.
  { rewrite (syscall_raise _ _ _ _ E0). split; [reflexivity |].
    exists (ticks w). split_and!; [lia | reflexivity | exact E0 | intros; lia |].
    left. split_and!; [lia | exact Hnone | reflexivity | auto]. }
  rewrite (syscall_run _ _ _ E0).
  set (w1 := set_dirs _ (tick w)).
  unfold bind at 1, now at 1. cbv beta iota.
  change (clock w1) with (clock w).
  change (mkMetadata project_id _ _ _ _ (clock w) "building" 0 None None)
    with (t_building w).
  unfold bind at 1. unfold write_file at 1.
  destruct (fault (S (ticks w))) as [e1|] eqn:E1.
  { rewrite (syscall_raise _ _ w1 e1 E1). split; [reflexivity |].
    exists (S (ticks w)).
    split_and!; [lia | reflexivity | exact E1 | |].
    - intros i Hi. replace i with (ticks w) by lia. exact E0.
    - left. split_and!; [lia | exact Hnone | reflexivity |].
      intros Hd. unfold w1. simpl.
      pose proof metadata_path_neq_project as Hneq.
      rewrite elem_of_union, elem_of_singleton. tauto. }
  rewrite (syscall_run _ _ w1 E1).
  set (w2 := log_write mp _ (set_files _ (tick w1))).
  assert (Hf2 : files w2 !! mp = Some (Json (t_building w)))
    by apply lookup_insert_eq.
  assert (Hh2 : history mp w2 = history mp w ++ [Json (t_building w)]).
  { unfold w2. now rewrite history_log_write, String.eqb_refl. }
  pose proof (generate_android_project_quiet mp pp
                (Classifier.app_type analysis) (Classifier.package_name analysis)
                (Classifier.features analysis)
                (metadata_path_last pp) w2) as Hq.
  unfold bind at 1.
  destruct (generate_android_project _ _ _ _ _ _ w2) as [[[]|e2] w3].
  2:{ (* scaffolding fails *)
    destruct Hq as (Hc3 & Hf3 & Hh3 & j & Hj & Hj' & Hfj & Hn).
    change (ticks w2) with (S (S (ticks w))) in *.
    split; [exact Hc3 |]. exists j.
    split_and!; [lia | exact Hj' | exact Hfj | |].
    - intros i Hi.
      destruct (decide (i = ticks w)) as [->|]; [exact E0 |].
      destruct (decide (i = S (ticks w))) as [->|]; [exact E1 |].
      apply Hn. lia.
    - right. split_and!; [lia | congruence | congruence]. }
  destruct Hq as (Hc3 & Hf3 & Hh3 & Ht3 & Hn).
  change (ticks w2) with (S (S (ticks w))) in *.
  unfold bind at 1, write_file at 1.
  destruct (fault (ticks w3)) as [e3|] eqn:E3.
  { rewrite (syscall_raise _ _ w3 e3 E3). split; [exact Hc3 |].
    exists (ticks w3).
    split_and!; [lia | reflexivity | exact E3 | |].
    - intros i Hi.
      destruct (decide (i = ticks w)) as [->|]; [exact E0 |].
      destruct (decide (i = S (ticks w))) as [->|]; [exact E1 |].
      apply Hn. lia.
    - right. split_and!; [lia | |].
      + change (files (tick w3)) with (files w3). congruence.
      + change (history mp (tick w3)) with (history mp w3). congruence. }
  rewrite (syscall_run _ _ w3 E3). unfold ret.
  split_and!; [reflexivity | exact Hc3 | apply lookup_insert_eq | | simpl; lia |].
  - rewrite history_log_write, String.eqb_refl.
    change (history mp (set_files _ (tick w3))) with (history mp w3).
    rewrite Hh3, Hh2, <- app_assoc. reflexivity.
  - intros i Hi. simpl in Hi.
    destruct (decide (i = ticks w)) as [->|]; [exact E0 |].
    destruct (decide (i = S (ticks w))) as [->|]; [exact E1 |].
    destruct (decide (i = ticks w3)) as [->|]; [exact E3 |].
    apply Hn. lia.
Qed.

Let t_completed (w : World) :=
  completed_record PROJECTS_DIR project_id analysis (clock w).

(** What a thread does to the record of a project that has none yet, for
    every fault oracle.  Six outcomes: no record; an error record after
    [building] or after [generated]; the completed record; the record left
    at [building] or at [generated] because the recovery failed as well. *)
Lemma thread_outcome w :
  files w !! mp = None ->
  match build_project_thread fault PROJECTS_DIR T project_id analysis w with
  | (r, w') =>
      (history mp w' = history mp w /\ files w' !! mp = None
       /\ (fault (ticks w) <> None \/ fault (S (ticks w)) <> None)
       /\ (mp ∉ dirs w -> r = Ok tt))
      \/ (exists e j,
            history mp w'
            = history mp w
              ++ [Json (t_building w); Json (set_error "error" e (t_building w))]
            /\ files w' !! mp = Some (Json (set_error "error" e (t_building w)))
            /\ r = Ok tt /\ fault j = Some e /\ S (ticks w) < j < ticks w'
            /\ fault (ticks w) = None /\ fault (S (ticks w)) = None)
      \/ (exists e j,
            history mp w'
            = history mp w
              ++ [Json (t_building w); Json (t_generated w);
                  Json (set_error "error" e (t_generated w))]
            /\ files w' !! mp = Some (Json (set_error "error" e (t_generated w)))
            /\ r = Ok tt /\ fault j = Some e /\ S (ticks w) < j < ticks w'
            /\ fault (ticks w) = None /\ fault (S (ticks w)) = None)
      \/ (history mp w'
          = history mp w
            ++ [Json (t_building w); Json (t_generated w); Json (t_completed w)]
          /\ files w' !! mp = Some (Json (t_completed w))
          /\ r = Ok tt
          /\ (forall i, ticks w <= i < ticks w' -> fault i = None))
      \/ (exists j1 j2,
            history mp w' = history mp w ++ [Json (t_building w)]
            /\ files w' !! mp = Some (Json (t_building w))
            /\ j1 < j2 /\ fault j1 <> None /\ fault j2 <> None
            /\ fault (ticks w) = None /\ fault (S (ticks w)) = None)
      \/ (exists j1 j2,
            history mp w'
            = history mp w ++ [Json (t_building w); Json (t_generated w)]
            /\ files w' !! mp = Some (Json (t_generated w))
            /\ j1 < j2 /\ fault j1 <> None /\ fault j2 <> None
            /\ fault (ticks w) = None /\ fault (S (ticks w)) = None)
  end.
Proof.
  intros Hnone.
  unfold build_project_thread, try_except, build_project_try.
  unfold bind at 1.
  pose proof (create_project_outcome w Hnone) as Hcp.
  destruct (create_project _ _ _ _ _ _ _ _ w) as [[p|e] w1].
  - (* the project was created *)
    destruct Hcp as (-> & Hc & Hf & Hh & Ht & Hn). fold mp.
    assert (F0 : fault (ticks w) = None) by (apply Hn; lia).
    assert (F1 : fault (S (ticks w)) = None) by (apply Hn; lia).
    unfold bind at 1, path_exists at 1. rewrite (exists_at_file _ _ _ Hf).
    unfold bind at 1. unfold bind at 1. unfold read_json at 1.
    destruct (fault (ticks w1)) as [e|] eqn:E.
    + rewrite (syscall_raise _ _ w1 e E).
      pose proof (except_with_record e (t_generated w) (tick w1) Hf) as Hx.
      destruct (build_project_except _ _ _ _ _) as [[[]|e'] w2].
      * destruct Hx as (_ & _ & Hf2 & Hh2 & Ht2).
        right; right; left. exists e, (ticks w1).
        split_and!; first [ leaf | rewrite Hh2; change (history mp (tick w1)) with (history mp w1); rewrite Hh, <- app_assoc; reflexivity ].
      * destruct Hx as (Hf2 & Hh2 & j & Hj1 & Hj2 & Hj).
        do 5 right. exists (ticks w1), j.
        split_and!; first [ leaf | rewrite Hh2; exact Hh ].
    + rewrite (syscall_run _ _ w1 E).
      change (files (tick w1)) with (files w1). rewrite Hf.
      unfold write_file at 1.
      change (ticks (tick w1)) with (S (ticks w1)).
      destruct (fault (S (ticks w1))) as [e|] eqn:E'.
      * rewrite (syscall_raise _ _ (tick w1) e E').
        pose proof (except_with_record e (t_generated w) (tick (tick w1)) Hf)
          as Hx.
        destruct (build_project_except _ _ _ _ _) as [[[]|e'] w2].
        -- destruct Hx as (_ & _ & Hf2 & Hh2 & Ht2).
           right; right; left. exists e, (S (ticks w1)).
           split_and!; first [ leaf | rewrite Hh2; change (history mp (tick (tick w1))) with (history mp w1); rewrite Hh, <- app_assoc; reflexivity ].
        -- destruct Hx as (Hf2 & Hh2 & j & Hj1 & Hj2 & Hj).
           do 5 right. exists (S (ticks w1)), j.
           split_and!; first [ leaf | rewrite Hh2; exact Hh ].
      * rewrite (syscall_run _ _ (tick w1) E'). unfold print, bind, ret.
        do 3 right; left.
        split_and!; [| apply lookup_insert_eq | reflexivity |].
        -- rewrite history_log_write, String.eqb_refl.
           change (history mp (set_files _ _)) with (history mp w1).
           rewrite Hh, <- app_assoc. reflexivity.
        -- intros i Hi. simpl in Hi.
           destruct (decide (i = ticks w1)) as [->|]; [exact E |].
           destruct (decide (i = S (ticks w1))) as [->|]; [exact E' |].
           apply Hn. lia.
  - (* creating the project raised [e] *)
    destruct Hcp as (Hc & j & Hj & Ht & Hfj & Hn & [A | B]).
    + destruct A as (Hle & Hf & Hh & Hd).
      pose proof (except_without_record e w1 Hf) as Hx.
      destruct (build_project_except _ _ _ _ _) as [r w2].
      destruct Hx as (Hf2 & Hh2 & _ & Hok).
      left. split_and!; [congruence | exact Hf2 | |].
      * destruct (decide (j = ticks w)) as [->|]; [left; congruence |].
        right. replace (S (ticks w)) with j by lia. congruence.
      * intros Hnd. now apply Hok, Hd.
    + destruct B as (Hlt & Hf & Hh).
      assert (F0 : fault (ticks w) = None) by (apply Hn; lia).
      assert (F1 : fault (S (ticks w)) = None) by (apply Hn; lia).
      pose proof (except_with_record e (t_building w) w1 Hf) as Hx.
      destruct (build_project_except _ _ _ _ _) as [[[]|e'] w2].
      * destruct Hx as (_ & _ & Hf2 & Hh2 & Ht2).
        right; left. exists e, j.
        split_and!; first [ leaf | rewrite Hh2, Hh, <- app_assoc; reflexivity ].
      * destruct Hx as (Hf2 & Hh2 & j' & Hj1 & Hj2 & Hj').
        do 4 right; left. exists j, j'.
        split_and!; first [ leaf | rewrite Hh2; exact Hh ].
Qed.

End Thread.

End WithEnvironment.
End BuilderFacts.

(** ** The classifier against its specification *)
Module ClassifierSpec.
Import Str StrFacts Classifier ClassifierFacts.

(** C1 (first archetype in catalog order wins): evaluated on a description
    with keywords of two archetypes.  The description [calculator game] has
    a hit for [calculator], the first entry of the table, and for [game],
    the last one; the rule of the specification selects [calculator], the
    loop returns [game]. *)
Theorem overlapping_keywords_select_last :
  spec_classify "calculator game" = "calculator"
  /\ hit (lower "calculator game") ["calculator"; "calculate"; "math";
                                    "arithmetic"; "add"; "subtract"] = true
  /\ app_type (analyze_description "calculator game") = "game".
Proof. vm_compute. repeat split; reflexivity. Qed.

(** C4 as stated fails: characters outside the identifier-safe set are kept.
    The description [My app!] gives [com.rahl.my.app!]. *)
Lemma package_name_keeps_unsafe_chars :
  package_name (analyze_description "My app!") = "com.rahl.my.app!"
  /\ all_chars spec_ident_safe (package_name (analyze_description "My app!"))
     <> true.
Proof. vm_compute. split; [reflexivity | discriminate]. Qed.

(** C4 (amended): for every description the package identifier is the first
    50 characters of [com.rahl.] followed by the first three
    whitespace-delimited tokens of the lower-cased description joined with
    dots; it starts with [com.rahl.], is at most 50 characters long and
    holds no whitespace character.  No other character is removed: the
    replacement of spaces and the second lower-casing change nothing. *)
Theorem package_name_shape (d : string) :
  let p := package_name (analyze_description d) in
  p = truncate 50 ("com.rahl." +:+ join "." (firstn 3 (split (lower d))))
  /\ startswith "com.rahl." p = true
  /\ String.length p <= 50
  /\ all_chars (fun c => negb (isspace c)) p = true.
Proof.
  cbv zeta. unfold analyze_description, package_name, make_package_name.
  set (words := firstn 3 (split (lower d))).
  assert (Hns : Forall (fun w => all_chars (fun c => negb (isspace c)) w = true) words).
  { apply Forall_take, split_tokens_nonspace. }
  assert (Hlow : Forall (fun w => all_chars (fun c => Ascii.eqb (lower_char c) c) w = true) words).
  { apply Forall_take, split_tokens, lower_fixed_chars. }
  set (body := "com.rahl." +:+ join "." words).
  assert (Hbody_ns : all_chars (fun c => negb (isspace c)) body = true).
  { unfold body. rewrite all_chars_app. apply andb_true_iff. split; [reflexivity |].
    apply all_chars_join; [reflexivity | exact Hns]. }
  assert (Hrep : replace_char " " "_" body = body).
  { unfold replace_char. apply map_chars_fixed.
    revert Hbody_ns. apply all_chars_impl. intros c Hc.
    destruct (Ascii.eqb c " ") eqn:E.
    - apply space_isspace in E. rewrite E in Hc. discriminate.
    - apply Ascii.eqb_refl. }
  assert (Hlo : lower body = body).
  { unfold lower. apply map_chars_fixed. unfold body.
    rewrite all_chars_app. apply andb_true_iff. split; [reflexivity |].
    apply all_chars_join; [reflexivity | exact Hlow]. }
  rewrite Hrep, Hlo. split; [reflexivity |]. split; [| split].
  - unfold body. apply startswith_truncate. simpl. lia.
  - apply length_truncate.
  - now apply truncate_all_chars.
Qed.

(** C8: feature detection is monotonic and additive.  A feature detected in
    [d] is detected in [d] extended with a feature keyword [k], and so is
    the feature [k] belongs to; a feature is reported exactly when one of
    its keywords occurs; the report follows the definition order and has no
    duplicates. *)
Theorem feature_detection_monotone_additive :
  (forall d k f,
      In k feature_keywords ->
      In f (features (analyze_description d)) ->
      In f (features (analyze_description (d +:+ k)))
      /\ In f (features (analyze_description (d +:+ " " +:+ k))))
  /\ (forall d f kws k,
         In (f, kws) feature_table -> In k kws ->
         In f (features (analyze_description (d +:+ k))))
  /\ (forall d f,
         In f (features (analyze_description d))
         <-> exists kws, In (f, kws) feature_table /\ hit (lower d) kws = true)
  /\ (forall d,
         sublist (features (analyze_description d)) (map fst feature_table)
         /\ NoDup (features (analyze_description d))).
Proof.
  unfold analyze_description. simpl.
  split; [| split; [| split]].
  - intros d k f _ Hf.
    apply in_extract_features in Hf as [kws [Hin Hhit]].
    split; apply in_extract_features; exists kws; (split; [exact Hin |]).
    + rewrite lower_app, <- (append_nil (lower d +:+ lower k)).
      now apply hit_extend.
    + rewrite lower_app, <- (append_nil (lower d +:+ lower _)).
      now apply hit_extend.
  - intros d f kws k Hf Hk.
    apply in_extract_features. exists kws. split; [exact Hf |].
    rewrite lower_app, (feature_keywords_lower k).
    + now apply hit_keyword_appended.
    + unfold feature_keywords. apply in_concat. exists kws. split; [| exact Hk].
      apply in_map_iff. now exists (f, kws).
  - intros d f. apply in_extract_features.
  - intros d. split; [apply extract_features_ordered |].
    eapply sublist_NoDup; [| apply extract_features_ordered].
    apply NoDup_ListNoDup. vm_compute.
    repeat (constructor; [simpl; intuition discriminate |]). constructor.
Qed.

Lemma feature_detection_monotone_additive_witness :
  In "dark_mode" (features (analyze_description "dark theme save")).
Proof.
  apply (proj1 feature_detection_monotone_additive "dark theme " "save" "dark_mode").
  - vm_compute. tauto.
  - vm_compute. tauto.
Defined.

(** C10: classification of a blank description.  When stripping leaves
    nothing, the result is the default archetype, no feature, a count of 0
    and the bare prefix as package identifier. *)
Theorem analyze_blank_description (d : string) :
  strip d = EmptyString ->
  analyze_description d
  = {| app_type := "webview"; features := [];
       package_name := "com.rahl."; detected_features := 0 |}
  /\ detected_features (analyze_description d)
     = length (features (analyze_description d)).
Proof.
  intros H. apply strip_empty_iff, blank_lower in H.
  split; [| reflexivity].
  unfold analyze_description, make_package_name. rewrite (split_all_space _ H).
  unfold detect_app_type, scan_keywords, extract_features, keywords, hit. simpl.
  rewrite !(contains_first_char isspace _ _ _ H) by reflexivity.
  reflexivity.
Qed.

Lemma analyze_blank_description_witness :
  strip "   " = EmptyString
  /\ app_type (analyze_description "   ") = "webview".
Proof.
  split; [reflexivity |].
  now rewrite (proj1 (analyze_blank_description "   " eq_refl)).
Defined.

End ClassifierSpec.

(** ** The build-job lifecycle against its specification *)
Module LifecycleSpec.
Import Str OsPath Sys Builder Server PathFacts SysFacts BuilderFacts.

(** The world of a server that has just started. *)
Definition w0 : World := world (initial "2024-05-01T10:00:00").





Lemma one_fault_some k msg j e : one_fault k msg j = Some e -> j = k /\ e = msg.
Proof.
  unfold one_fault. destruct (Nat.eqb_spec j k); [| discriminate].
  intros [= <-]. now split.
Qed.

Lemma one_fault_not_none k msg j : one_fault k msg j <> None -> j = k.
Proof.
  unfold one_fault. destruct (Nat.eqb_spec j k); [trivial | congruence].
Qed.




(** A status query for a project with a record answers 200 or 500. *)
Lemma status_of_existing_record fault PROJECTS_DIR project_id m w :
  files w !! metadata_path_of (path_join PROJECTS_DIR [project_id])
  = Some (Json m) ->
  exists code body,
    fst (dispatch (get_project_status fault PROJECTS_DIR project_id) w)
    = JsonResponse code body
    /\ (code = 200 \/ code = 500).
Proof.
  intros Hm. unfold dispatch, get_project_status, bind, path_exists.
  rewrite (exists_at_file _ _ _ Hm).
  unfold try_except, bind, read_json, syscall, ret.
  change (negb true) with false. cbv beta iota.
  assert (Hm' : files (tick w) !! metadata_path_of (path_join PROJECTS_DIR [project_id])
                = Some (Json m)) by exact Hm.
  destruct (fault (ticks w)) as [e|].
  { do 2 eexists. split; [reflexivity | now right]. }
  rewrite Hm'.
  destruct (truthy (apk_path m)) as [p|].
  - destruct (exists_at p (tick w));
      do 2 eexists; (split; [reflexivity | now left]).
  - do 2 eexists. split; [reflexivity | now left].
Qed.



End LifecycleSpec.

(** ** Artifact download against its specification *)
Module DownloadSpec.
Import Str OsPath Sys Builder Server PathFacts SysFacts BuilderFacts.

(** C5 as stated fails: when [create_project] has committed [generated],
    the stub artifact is on disk already and a download request is served
    that file. *)
Lemma download_while_generated_serves_stub :
  let '(_, w1) :=
    create_project no_fault "/srv/projects" sample_templates "1b9d6bcd"
      "todo" "com.rahl.todo.list.app" [] EmptyString LifecycleSpec.w0 in
  option_map state_of (files w1 !! "/srv/projects/1b9d6bcd/metadata.json")
  = Some (Some ("generated", 50))
  /\ fst (dispatch (download_apk no_fault "/srv/projects" "1b9d6bcd") w1)
     = FileResponse "/srv/projects/1b9d6bcd/app/build/outputs/apk/debug/app-debug.apk"
         (Text dummy_content) "rahl_1b9d6bcd.apk".
Proof. vm_compute. split; reflexivity. Qed.

(** C5 (amended): in the state [create_project] returns in, the record
    says [generated] with progress 50 and no artifact path, the stub
    artifact written by scaffolding is at the conventional build-output
    path, and a download request is served that stub.  A download request
    answers not-found when neither that path nor a record exists. *)
Theorem download_serves_stub_once_generated
    (fault fault' : nat -> option string) (PROJECTS_DIR : string)
    (T : Templates) (project_id app_type package_name : string)
    (features : list string) (description : string) (w w1 : World)
    (p : string) :
  create_project fault PROJECTS_DIR T project_id app_type package_name
    features description w = (Ok p, w1) ->
  let pp := path_join PROJECTS_DIR [project_id] in
  (exists m, files w1 !! metadata_path_of pp = Some (Json m)
             /\ status m = "generated" /\ progress m = 50
             /\ apk_path m = None)
  /\ dispatch (download_apk fault' PROJECTS_DIR project_id) w1
     = (FileResponse (apk_path_of pp) (Text dummy_content)
          ("rahl_" +:+ project_id +:+ ".apk"), w1)
  /\ (forall w2,
        exists_at (apk_path_of pp) w2 = false ->
        exists_at (metadata_path_of pp) w2 = false ->
        dispatch (download_apk fault' PROJECTS_DIR project_id) w2
        = (JsonResponse 404 (ErrorBody "APK not found or not built yet"), w2)).
Proof.
  intros H pp.
  apply create_project_ok in H as (_ & Hrec & Hapk). fold pp in Hrec, Hapk.
  split_and!; [exact Hrec | |].
  - unfold dispatch, download_apk, bind, path_exists. fold pp.
    rewrite (exists_at_file _ _ _ Hapk). unfold send_file. now rewrite Hapk.
  - intros w2 Hno_apk Hno_meta.
    unfold dispatch, download_apk, bind, path_exists, ret. fold pp.
    now rewrite Hno_apk, Hno_meta.
Qed.

Lemma download_serves_stub_once_generated_witness :
  fst (dispatch (download_apk no_fault "/srv/projects" "1b9d6bcd")
         (snd (create_project no_fault "/srv/projects" sample_templates
                 "1b9d6bcd" "todo" "com.rahl.todo.list.app" [] EmptyString
                 LifecycleSpec.w0)))
  = FileResponse (apk_path_of (path_join "/srv/projects" ["1b9d6bcd"]))
      (Text dummy_content) "rahl_1b9d6bcd.apk".
Proof.
  pose proof (download_serves_stub_once_generated no_fault no_fault
                "/srv/projects" sample_templates "1b9d6bcd" "todo"
                "com.rahl.todo.list.app" [] EmptyString LifecycleSpec.w0
                (snd (create_project no_fault "/srv/projects" sample_templates
                        "1b9d6bcd" "todo" "com.rahl.todo.list.app" []
                        EmptyString LifecycleSpec.w0))
                "/srv/projects/1b9d6bcd") as H.
  cbv zeta in H. destruct H as (_ & Hd & _); [vm_compute; reflexivity |].
  now rewrite Hd.
Defined.

End DownloadSpec.

(** ** Scaffolding against its specification *)
Module ScaffoldSpec.
Import Str OsPath Sys Builder Server PathFacts SysFacts BuilderFacts.

Lemma written_since_prefix js (w w' : World) :
  journal w' = js ++ journal w -> written_since w w' = js.
Proof.
  intros H. unfold written_since. rewrite H, length_app.
  replace (length js + length (journal w) - length (journal w))
    with (length js) by lia.
  now rewrite take_app_length.
Qed.

(** C7: scaffolding is idempotent.  Generating a project a second time
    with the same target directory, archetype, package identifier and
    features, both invocations succeeding, leaves the files and the
    directories exactly as the first invocation left them, and writes the
    same files with the same contents in the same order.  Any other
    successful invocation with these inputs, from any state of the disk,
    writes those same files with those same contents, so that equal trees
    stay equal. *)
Theorem scaffolding_is_idempotent
    (fault1 fault2 : nat -> option string) (T : Templates)
    (project_path app_type package_name : string) (features : list string)
    (w w1 w2 : World) :
  generate_android_project fault1 T project_path app_type package_name
    features w = (Ok tt, w1) ->
  generate_android_project fault2 T project_path app_type package_name
    features w1 = (Ok tt, w2) ->
  files w2 = files w1
  /\ dirs w2 = dirs w1
  /\ written_since w1 w2 = written_since w w1
  /\ (forall fault3 w3 w4,
        generate_android_project fault3 T project_path app_type package_name
          features w3 = (Ok tt, w4) ->
        written_since w3 w4 = written_since w w1
        /\ (forall p f, In (p, f) (written_since w w1) ->
                        files w4 !! p = files w1 !! p)
        /\ (files w3 = files w -> dirs w3 = dirs w ->
            files w4 = files w1 /\ dirs w4 = dirs w1)).
Proof.
  intros H1 H2.
  destruct (generate_android_project_uniform T project_path app_type
              package_name features) as (js & ds & n & a & Hu).
  apply Hu in H1 as [_ ->]. apply Hu in H2 as [_ ->].
  cbn [files dirs journal].
  rewrite (written_since_prefix js w) by reflexivity.
  split_and!.
  - apply replay_idem.
  - now rewrite <- (assoc_L (∪)), (idemp_L (∪) ds).
  - now apply written_since_prefix.
  - intros fault3 w3 w4 H3. apply Hu in H3 as [_ ->]. cbn [files dirs].
    split_and!.
    + now apply written_since_prefix.
    + intros p f Hin. now apply (replay_written p f).
    + intros -> ->. now split.
Qed.

Lemma scaffolding_is_idempotent_witness :
  let gen :=
    generate_android_project no_fault sample_templates
      "/srv/projects/1b9d6bcd" "calculator" "com.rahl.my.calculator" [] in
  files (snd (gen (snd (gen LifecycleSpec.w0))))
  = files (snd (gen LifecycleSpec.w0)).
Proof.
  intros gen.
  apply (scaffolding_is_idempotent no_fault no_fault sample_templates
           "/srv/projects/1b9d6bcd" "calculator" "com.rahl.my.calculator" []
           LifecycleSpec.w0 (snd (gen LifecycleSpec.w0))
           (snd (gen (snd (gen LifecycleSpec.w0))))).
  - vm_compute. reflexivity.
  - vm_compute. reflexivity.
Defined.

End ScaffoldSpec.

(** ** The build invoker against its specification *)
Module InvokerSpec.
Import Str OsPath Sys Invoker.

Lemma abspath_absolute c o : startswith "/" o = true -> abspath c o = o.
Proof.
  intros H. unfold abspath, join2.
  destruct o as [|a o]; [discriminate |].
  cbn [startswith] in H. apply andb_true_iff in H as [Ha _].
  apply Ascii.eqb_eq in Ha. subst a. reflexivity.
Qed.

Lemma process_eta ps : ps = mkProcess (cwd ps) (disk ps).
Proof. now destruct ps. Qed.

Lemma last_n_suffix {A} n (l : list A) :
  exists before, l = before ++ last_n n l /\ length (last_n n l) = Nat.min n (length l).
Proof.
  unfold last_n. exists (firstn (length l - n) l). split.
  - symmetry. apply firstn_skipn.
  - rewrite length_skipn. lia.
Qed.

Section WithToolchain.
Variable gradle : list string -> string -> option string -> list Entry -> Spawn.
Variable android_sdk_path : option string.
Variables project_path build_type : string.
Variable ps : Process.

(** The working directory is an absolute path. *)
Hypothesis cwd_absolute : startswith "/" (cwd ps) = true.
(** The build tool leaves the directory it was started from in place. *)
Hypothesis gradle_keeps_cwd :
  forall cmd c d,
    directory_at (cwd ps) d = true ->
    directory_at (cwd ps) (disk_after (gradle cmd c android_sdk_path d) d) = true.

Lemma chdir_back c d :
  directory_at (cwd ps) d = true ->
  chdir (cwd ps) (mkProcess c d) = (Ok tt, mkProcess (cwd ps) d).
Proof.
  intros H. unfold chdir, isdir. cbn [cwd disk].
  rewrite (abspath_absolute c _ cwd_absolute). now rewrite H.
Qed.

(** Every exit path ends in the working directory it started from, with a
    result returned. *)
Lemma build_apk_restores :
  exists result after,
    build_apk gradle android_sdk_path project_path build_type ps
    = (Ok result, mkProcess (cwd ps) after).
Proof.
  unfold build_apk, getcwd.
  destruct (isdir (cwd ps) ps) eqn:Hcwd.
  2:{ exists (Failure "FileNotFoundError" None), (disk ps).
      f_equal. apply process_eta. }
  assert (Hd : directory_at (cwd ps) (disk ps) = true).
  { unfold isdir in Hcwd. now rewrite abspath_absolute in Hcwd. }
  unfold try_except, build_apk_try. unfold bind at 1. unfold chdir at 1.
  destruct (isdir project_path ps).
  2:{ unfold ret. pose proof (chdir_back (cwd ps) (disk ps) Hd) as Hb.
      rewrite <- process_eta in Hb. rewrite Hb.
      exists (Failure "FileNotFoundError" None), (disk ps).
      f_equal. apply process_eta. }
  unfold bind at 1, path_exists at 1. unfold bind at 1, run_process at 1.
  cbn [cwd disk].
  pose proof (gradle_keeps_cwd
                (gradle_command build_type
                   (lexists "./gradlew"
                      (mkProcess (abspath (cwd ps) project_path) (disk ps))))
                (abspath (cwd ps) project_path) (disk ps) Hd) as Hkeep.
  destruct (gradle _ _ _ _) as [e | e after | lines returncode after];
    cbn [disk_after] in Hkeep.
  - unfold ret. rewrite (chdir_back _ _ Hd). eauto.
  - unfold ret. rewrite (chdir_back _ _ Hkeep). eauto.
  - unfold bind at 1. rewrite (chdir_back _ _ Hkeep). cbn [fst snd].
    destruct (returncode =? 0)%Z.
    + destruct (_find_apk_file _ _ _) as [apk|].
      * unfold bind, getsize, ret.
        destruct (entry_at apk _); rewrite (chdir_back _ _ Hkeep); eauto.
      * rewrite (chdir_back _ _ Hkeep). eauto.
    + unfold ret. rewrite (chdir_back _ _ Hkeep). eauto.
Qed.

(** What is returned once the build tool has run to its end. *)
Lemma build_apk_reports lines returncode after :
  isdir (cwd ps) ps = true ->
  isdir project_path ps = true ->
  gradle (gradle_command build_type
            (lexists "./gradlew"
               (mkProcess (abspath (cwd ps) project_path) (disk ps))))
         (abspath (cwd ps) project_path) android_sdk_path (disk ps)
  = Exited lines returncode after ->
  let output := join newline (last_n 20 (map strip lines)) in
  let result :=
    fst (build_apk gradle android_sdk_path project_path build_type ps) in
  (returncode <> 0%Z ->
   result = Ok (Failure ("Build failed with exit code "
                         +:+ str_of_int returncode) (Some output)))
  /\ (returncode = 0%Z ->
      _find_apk_file project_path build_type (mkProcess (cwd ps) after) = None ->
      result = Ok (Failure "APK file not found after build" (Some output))).
Proof.
  intros Hcwd Hproj Hrun output result. subst result.
  assert (Hd : directory_at (cwd ps) (disk ps) = true).
  { unfold isdir in Hcwd. now rewrite abspath_absolute in Hcwd. }
  pose proof (gradle_keeps_cwd
                (gradle_command build_type
                   (lexists "./gradlew"
                      (mkProcess (abspath (cwd ps) project_path) (disk ps))))
                (abspath (cwd ps) project_path) (disk ps) Hd) as Hkeep.
  rewrite Hrun in Hkeep. cbn [disk_after] in Hkeep.
  assert (Hstart :
    build_apk gradle android_sdk_path project_path build_type ps
    = let '(r, ps2) :=
        try_except
          (if (returncode =? 0)%Z then
             fun ps1 =>
               match _find_apk_file project_path build_type ps1 with
               | Some apk_path =>
                   bind (getsize apk_path)
                     (fun apk_size =>
                        ret (Success apk_path apk_size output)) ps1
               | None =>
                   (Ok (Failure "APK file not found after build" (Some output)),
                    ps1)
               end
           else
             ret (Failure ("Build failed with exit code "
                           +:+ str_of_int returncode) (Some output)))
          (fun e => ret (Failure e None))
          (mkProcess (cwd ps) after) in
      match chdir (cwd ps) ps2 with
      | (Ok _, ps3) => (r, ps3)
      | (Raise e, ps3) => (Raise e, ps3)
      end).
  { unfold build_apk, getcwd. rewrite Hcwd.
    unfold try_except, build_apk_try. unfold bind at 1. unfold chdir at 1.
    rewrite Hproj.
    unfold bind at 1, path_exists at 1. unfold bind at 1, run_process at 1.
    cbn [cwd disk]. rewrite Hrun.
    unfold bind at 1. rewrite (chdir_back _ _ Hkeep). cbn [fst snd].
    reflexivity. }
  rewrite Hstart. clear Hstart. unfold try_except. split.
  - intros Hrc. apply Z.eqb_neq in Hrc. rewrite Hrc. unfold ret.
    now rewrite (chdir_back _ _ Hkeep).
  - intros Hrc Hnone. subst returncode. rewrite Z.eqb_refl, Hnone.
    now rewrite (chdir_back _ _ Hkeep).
Qed.

End WithToolchain.


(** A project with a wrapper script whose build prints 22 lines and exits
    with code 1. *)
Definition sample_process : Process :=
  mkProcess "/home/dev"
    [ mkEntry "/home/dev" true 4096;
      mkEntry "/home/dev/shop" true 4096;
      mkEntry "/home/dev/shop/gradlew" false 1024 ].

Definition failing_gradle
  : list string -> string -> option string -> list Entry -> Spawn :=
  fun cmd c sdk d =>
    Exited (map (fun n => "  task " +:+ str_of_int (Z.of_nat n) +:+ " ")
                (seq 1 21) ++ ["BUILD FAILED"]) 1 d.


End InvokerSpec.

(** ** Further facts about the server: frames and read-only handlers *)
Module ServerFacts.
Import Str StrFacts OsPath Sys Builder Server PathFacts SysFacts BuilderFacts.

(** Two worlds with the same disk and journal; the count of system calls
    may differ. *)
Definition same_disk (w w' : World) : Prop :=
  files w' = files w /\ dirs w' = dirs w /\ journal w' = journal w
  /\ clock w' = clock w.

Lemma same_disk_refl w : same_disk w w.
Proof. now repeat split. Qed.

Lemma same_disk_tick w : same_disk w (tick w).
Proof. now repeat split. Qed.

(** A computation that leaves the file at [p] and its history alone,
    however it ends. *)
Definition leaves (p : string) {A} (c : M A) : Prop :=
  forall w, files (snd (c w)) !! p = files w !! p
            /\ history p (snd (c w)) = history p w.

Section Leaves.
Variable fault : nat -> option string.
Variable p : string.

Lemma leaves_ret {A} (a : A) : leaves p (ret a).
Proof. intros w. now split. Qed.

Lemma leaves_bind {A B} (c : M A) (k : A -> M B) :
  leaves p c -> (forall a, leaves p (k a)) -> leaves p (bind c k).
Proof.
  intros Hc Hk w. unfold bind. specialize (Hc w).
  destruct (c w) as [[a|e] w1]; [| exact Hc].
  specialize (Hk a w1). destruct (k a w1) as [r w2]. simpl in *.
  destruct Hc, Hk. split; congruence.
Qed.

(** When [c] can return one value only, the continuation is needed for
    that value only. *)
Lemma leaves_bind_const {A B} (c : M A) (k : A -> M B) (a0 : A) :
  (forall w a w', c w = (Ok a, w') -> a = a0) ->
  leaves p c -> leaves p (k a0) -> leaves p (bind c k).
Proof.
  intros Hconst Hc Hk w. unfold bind. specialize (Hc w).
  destruct (c w) as [[a|e] w1] eqn:E; [| exact Hc].
  rewrite (Hconst _ _ _ E).
  specialize (Hk w1). destruct (k a0 w1) as [r w2]. simpl in *.
  destruct Hc, Hk. split; congruence.
Qed.

Lemma leaves_try_except {A} (c : M A) (h : string -> M A) :
  leaves p c -> (forall e, leaves p (h e)) -> leaves p (try_except c h).
Proof.
  intros Hc Hh w. unfold try_except. specialize (Hc w).
  destruct (c w) as [[a|e] w1]; [exact Hc |].
  specialize (Hh e w1). destruct (h e w1) as [r w2]. simpl in *.
  destruct Hc, Hh. split; congruence.
Qed.

Lemma leaves_quiet {A} (c : M A) : quiet fault p c -> leaves p c.
Proof.
  intros Hq w. specialize (Hq w). destruct (c w) as [[a|e] w1]; simpl.
  - now destruct Hq as (_ & Hf & Hh & _).
  - now destruct Hq as (_ & Hf & Hh & _).
Qed.

Lemma leaves_makedirs q : leaves p (makedirs fault q).
Proof. apply leaves_quiet, quiet_makedirs. Qed.

Lemma leaves_write_file q f : q <> p -> leaves p (write_file fault q f).
Proof. intros H. now apply leaves_quiet, quiet_write_file. Qed.

Lemma leaves_read_json q : leaves p (read_json fault q).
Proof.
  intros w. unfold read_json, syscall.
  destruct (fault (ticks w)); [now split |].
  change (files (tick w)) with (files w).
  destruct (files w !! q) as [[|]|]; now split.
Qed.

Lemma leaves_path_exists q : leaves p (path_exists q).
Proof. intros w. now split. Qed.

Lemma leaves_now : leaves p now.
Proof. intros w. now split. Qed.

End Leaves.

(** *** Paths of plain project identifiers *)

(** An identifier that is not empty and holds no slash, as the eight
    hexadecimal digits [build_apk] draws. *)
Definition plain_id (project_id : string) : Prop :=
  project_id <> EmptyString /\ contains "/" project_id = false.

(** What [os.path.join] puts in front of a plain component. *)
Definition joined_prefix (dir : string) : string :=
  if match dir with EmptyString => true | _ => endswith_sep dir end
  then dir else dir +:+ "/".

Lemma no_slash_cons c s :
  contains "/" (String c s) = false ->
  is_sep c = false /\ contains "/" s = false.
Proof.
  rewrite contains_cons. intros H. apply orb_false_iff in H as [H1 H2].
  split; [| exact H2]. cbn [startswith] in H1.
  unfold is_sep. rewrite andb_true_r in H1.
  now rewrite Ascii.eqb_sym.
Qed.

Lemma endswith_sep_app a b :
  b <> EmptyString -> contains "/" b = false -> endswith_sep (a +:+ b) = false.
Proof.
  intros Hb Hns. induction a as [|c a IH].
  - rewrite append_nil. clear Hb. induction b as [|c b IH]; [reflexivity |].
    apply no_slash_cons in Hns as [Hc Hns].
    destruct b as [|c' b]; [exact Hc | now apply IH].
  - rewrite append_cons.
    destruct (a +:+ b) as [|c' r] eqn:E; [| exact IH].
    destruct a; [rewrite append_nil in E; congruence | discriminate].
Qed.

Lemma append_assoc a b c : (a +:+ b) +:+ c = a +:+ (b +:+ c).
Proof.
  induction a as [|x a IH]; [reflexivity |]. rewrite !append_cons. now rewrite IH.
Qed.

Lemma join2_plain dir project_id :
  plain_id project_id -> join2 dir project_id = joined_prefix dir +:+ project_id.
Proof.
  intros [Hne Hns]. unfold join2, joined_prefix.
  destruct project_id as [|c s]; [congruence |].
  apply no_slash_cons in Hns as [Hc _].
  cbn [startswith]. unfold is_sep in Hc. rewrite Ascii.eqb_sym in Hc.
  rewrite Hc. cbn [andb].
  destruct (match dir with EmptyString => true | _ => endswith_sep dir end);
    [reflexivity |].
  now rewrite append_assoc.
Qed.

Lemma metadata_path_plain dir project_id :
  plain_id project_id ->
  metadata_path_of (path_join dir [project_id])
  = joined_prefix dir +:+ (project_id +:+ "/metadata.json").
Proof.
  intros Hp. unfold metadata_path_of, path_join. cbn [fold_left].
  rewrite (join2_plain _ _ Hp). destruct Hp as [Hne Hns].
  unfold join2 at 1. cbn [startswith]. cbn [Ascii.eqb andb].
  replace (startswith "/" "metadata.json") with false by reflexivity.
  rewrite (endswith_sep_app _ _ Hne Hns).
  destruct (joined_prefix dir +:+ project_id) eqn:E.
  - destruct (joined_prefix dir); [rewrite append_nil in E; congruence | discriminate].
  - rewrite <- E. now rewrite append_assoc.
Qed.

Lemma append_inj_r a b s : a +:+ s = b +:+ s -> a = b.
Proof.
  intros H.
  assert (Hlen : String.length a = String.length b).
  { apply (f_equal String.length) in H. rewrite !length_append in H. lia. }
  revert b H Hlen. induction a as [|x a IH]; intros [|y b] H Hlen;
    try discriminate; [reflexivity |].
  rewrite !append_cons in H. injection H as -> H.
  f_equal. apply IH; [exact H | simpl in Hlen; lia].
Qed.

Lemma append_inj_l a s t : a +:+ s = a +:+ t -> s = t.
Proof.
  induction a as [|x a IH]; [trivial |].
  rewrite !append_cons. intros [= H]. now apply IH.
Qed.

(** Distinct plain identifiers have distinct records. *)
Lemma metadata_path_inj dir project_id project_id' :
  plain_id project_id -> plain_id project_id' ->
  metadata_path_of (path_join dir [project_id])
  = metadata_path_of (path_join dir [project_id']) ->
  project_id = project_id'.
Proof.
  intros Hp Hp' H. rewrite !metadata_path_plain in H by assumption.
  apply append_inj_l in H. now apply append_inj_r in H.
Qed.

(** *** What a thread leaves alone *)

Lemma thread_leaves fault PROJECTS_DIR T project_id analysis p :
  last_char p = Some "n"%char ->
  p <> metadata_path_of (path_join PROJECTS_DIR [project_id]) ->
  leaves p (build_project_thread fault PROJECTS_DIR T project_id analysis).
Proof.
  intros Hlast Hne.
  assert (Hne' : metadata_path_of (path_join PROJECTS_DIR [project_id]) <> p)
    by congruence.
  unfold build_project_thread, build_project_try, build_project_except,
    create_project, print.
  apply leaves_try_except.
  - apply (leaves_bind_const _ _ _ (path_join PROJECTS_DIR [project_id])).
    + intros w a w' H.
      now apply (create_project_ok fault PROJECTS_DIR T) in H as (-> & _).
    + repeat first
        [ apply leaves_ret | apply leaves_now | apply leaves_makedirs
        | apply leaves_write_file; exact Hne'
        | apply (leaves_quiet fault), generate_android_project_quiet;
          exact Hlast
        | apply leaves_bind; [| intros ?] ].
    + apply leaves_bind; [apply leaves_path_exists |].
      intros [|].
      * repeat first
          [ apply leaves_ret | apply (leaves_read_json fault)
          | apply leaves_write_file; exact Hne'
          | apply leaves_bind; [| intros ?] ].
      * repeat first [ apply leaves_ret | apply leaves_bind; [| intros ?] ].
  - intros e. apply leaves_bind; [apply leaves_ret |]. intros _.
    apply leaves_bind; [apply leaves_path_exists |]. intros [|].
    + repeat first
        [ apply leaves_ret | apply (leaves_read_json fault)
        | apply leaves_write_file; exact Hne'
        | apply leaves_bind; [| intros ?] ].
    + apply leaves_ret.
Qed.

End ServerFacts.

(** ** Further properties of the request handlers and the build thread *)
Module ServerProps.
Import Str StrFacts OsPath Sys Builder Server PathFacts SysFacts BuilderFacts
  ServerFacts.


(** A status query for an identifier without a record answers 404 and
    leaves the world as it is. *)
Theorem status_of_unknown_project
    (fault : nat -> option string) (PROJECTS_DIR project_id : string)
    (w : World) :
  exists_at (metadata_path_of (path_join PROJECTS_DIR [project_id])) w = false ->
  dispatch (get_project_status fault PROJECTS_DIR project_id) w
  = (JsonResponse 404 (ErrorBody "Project not found"), w).
Proof.
  intros H. unfold dispatch, get_project_status, bind, path_exists.
  now rewrite H.
Qed.

Lemma status_of_unknown_project_witness :
  dispatch (get_project_status no_fault "/srv/projects" "0badc0de")
    LifecycleSpec.w0
  = (JsonResponse 404 (ErrorBody "Project not found"), LifecycleSpec.w0).
Proof.
  apply (status_of_unknown_project no_fault "/srv/projects" "0badc0de"
           LifecycleSpec.w0).
  reflexivity.
Defined.

(** The status and download handlers only read: whatever they answer and
    whatever fails, files, directories and journal are as before. *)
Theorem query_handlers_are_read_only
    (fault : nat -> option string) (PROJECTS_DIR project_id : string)
    (w : World) :
  same_disk w (snd (dispatch (get_project_status fault PROJECTS_DIR project_id) w))
  /\ same_disk w (snd (dispatch (download_apk fault PROJECTS_DIR project_id) w)).
Proof.
  split.
  - unfold dispatch, get_project_status, bind, path_exists.
    destruct (exists_at _ w); cbn [negb]; [| apply same_disk_refl].
    unfold try_except, bind, read_json, syscall, ret.
    destruct (fault (ticks w)); [apply same_disk_tick |].
    change (files (tick w)) with (files w).
    destruct (files w !! _) as [[c|m]|]; try apply same_disk_tick.
    destruct (truthy (apk_path m)) as [p|]; [| apply same_disk_tick].
    destruct (exists_at p (tick w)); apply same_disk_tick.
  - unfold dispatch, download_apk, bind, path_exists, send_file, ret.
    destruct (exists_at (apk_path_of _) w).
    { destruct (files w !! _); apply same_disk_refl. }
    destruct (exists_at (metadata_path_of _) w); [| apply same_disk_refl].
    unfold read_json, syscall.
    destruct (fault (ticks w)); [apply same_disk_tick |].
    change (files (tick w)) with (files w).
    destruct (files w !! metadata_path_of _) as [[c|m]|];
      try apply same_disk_tick.
    destruct (truthy (apk_path m)) as [p|]; [| apply same_disk_tick].
    destruct (exists_at p (tick w)); [| apply same_disk_tick].
    change (files (tick w)) with (files w).
    destruct (files w !! p); apply same_disk_tick.
Qed.


Lemma truthy_nonempty p : p <> EmptyString -> truthy (Some p) = Some p.
Proof. destruct p; [congruence | reflexivity]. Qed.

(** A build without failing system call, for a project without a record:
    the thread returns, the three records were committed in order, the
    stored record is the completed one with the conventional artifact
    path, the stub artifact is on disk, a status query reports the artifact
    ready with the size of the stub, and a download serves the stub. *)
Theorem fault_free_build_completes
    (PROJECTS_DIR : string) (T : Templates) (project_id : string)
    (analysis : Classifier.Analysis) (w : World) :
  let pp := path_join PROJECTS_DIR [project_id] in
  let mp := metadata_path_of pp in
  let done := completed_record PROJECTS_DIR project_id analysis (clock w) in
  files w !! mp = None ->
  let '(r, w') :=
    build_project_thread no_fault PROJECTS_DIR T project_id analysis w in
  r = Ok tt
  /\ history mp w'
     = history mp w
       ++ [Json (building_record project_id analysis (clock w));
           Json (generated_record project_id analysis (clock w));
           Json done]
  /\ files w' !! mp = Some (Json done)
  /\ apk_path done = Some (apk_path_of pp)
  /\ files w' !! apk_path_of pp = Some (Text dummy_content)
  /\ fst (dispatch (get_project_status no_fault PROJECTS_DIR project_id) w')
     = JsonResponse 200
         (StatusBody done true (Some (String.length dummy_content)))
  /\ fst (dispatch (download_apk no_fault PROJECTS_DIR project_id) w')
     = FileResponse (apk_path_of pp) (Text dummy_content)
         ("rahl_" +:+ project_id +:+ ".apk").
Proof.
  intros pp mp done Hnone.
  unfold build_project_thread, try_except, build_project_try.
  unfold bind at 1.
  pose proof (create_project_outcome no_fault PROJECTS_DIR T project_id
                analysis w Hnone) as Hcp.
  cbv zeta in Hcp. fold pp in Hcp. fold mp in Hcp.
  destruct (create_project _ _ _ _ _ _ _ _ w) as [[p|e] w1] eqn:Ecp.
  2:{ destruct Hcp as (_ & j & _ & _ & Hj & _). discriminate. }
  destruct Hcp as (-> & Hc & Hf & Hh & _).
  apply create_project_ok in Ecp as (_ & _ & Hapk). fold pp in Hapk.
  fold mp. unfold bind at 1, path_exists at 1.
  rewrite (exists_at_file _ _ _ Hf).
  unfold bind at 1. unfold bind at 1. unfold read_json, write_file, syscall.
  unfold no_fault at 1. change (files (tick w1)) with (files w1). rewrite Hf.
  unfold no_fault at 1. unfold print, bind, ret.
  set (w' := log_write mp _ _).
  assert (Hrec : files w' !! mp = Some (Json done)) by apply lookup_insert_eq.
  assert (Hstub : files w' !! apk_path_of pp = Some (Text dummy_content)).
  { unfold w'. cbn [files log_write set_files tick].
    rewrite lookup_insert_ne; [exact Hapk |].
    pose proof (apk_path_last pp) as Hk. unfold mp. path_neq. }
  split_and!; try reflexivity; try assumption.
  - unfold w'. rewrite history_log_write, String.eqb_refl.
    change (history mp (set_files _ _)) with (history mp w1).
    rewrite Hh, <- app_assoc. reflexivity.
  - unfold dispatch, get_project_status, bind, path_exists. fold pp. fold mp.
    rewrite (exists_at_file _ _ _ Hrec). cbn [negb].
    unfold try_except, bind, read_json, syscall, no_fault, ret.
    change (files (tick w')) with (files w'). rewrite Hrec.
    change (apk_path done) with (Some (apk_path_of pp)).
    rewrite truthy_nonempty
      by (intros E; pose proof (apk_path_last pp) as Hk; rewrite E in Hk;
          discriminate).
    rewrite (exists_at_file _ (tick w') _ Hstub).
    unfold getsize. change (files (tick w')) with (files w').
    now rewrite Hstub.
  - unfold dispatch, download_apk, bind, path_exists. fold pp.
    rewrite (exists_at_file _ _ _ Hstub). unfold send_file. now rewrite Hstub.
Qed.

Lemma fault_free_build_completes_witness :
  fst (dispatch (download_apk no_fault "/srv/projects" "1b9d6bcd")
         (snd (build_project_thread no_fault "/srv/projects" sample_templates
                 "1b9d6bcd" (Classifier.analyze_description "todo list app")
                 LifecycleSpec.w0)))
  = FileResponse (apk_path_of (path_join "/srv/projects" ["1b9d6bcd"]))
      (Text dummy_content) "rahl_1b9d6bcd.apk".
Proof.
  pose proof (fault_free_build_completes "/srv/projects" sample_templates
                "1b9d6bcd" (Classifier.analyze_description "todo list app")
                LifecycleSpec.w0 eq_refl) as H.
  destruct (build_project_thread _ _ _ _ _ _) as [r w'].
  now destruct H as (_ & _ & _ & _ & _ & _ & H).
Defined.

(** Builds are isolated: a thread, whatever fails in it, leaves the record
    of every other project and its history as they are. *)
Theorem builds_are_isolated
    (fault : nat -> option string) (PROJECTS_DIR : string) (T : Templates)
    (project_id other_id : string) (analysis : Classifier.Analysis)
    (w : World) :
  plain_id project_id -> plain_id other_id -> project_id <> other_id ->
  let other := metadata_path_of (path_join PROJECTS_DIR [other_id]) in
  let w' :=
    snd (build_project_thread fault PROJECTS_DIR T project_id analysis w) in
  files w' !! other = files w !! other /\ history other w' = history other w.
Proof.
  intros Hp Hp' Hne other w'.
  apply (thread_leaves fault PROJECTS_DIR T project_id analysis other).
  - apply metadata_path_last.
  - intros E. apply Hne. symmetry.
    now apply (metadata_path_inj PROJECTS_DIR).
Qed.

Lemma builds_are_isolated_witness :
  let other := metadata_path_of (path_join "/srv/projects" ["0badc0de"]) in
  let w1 :=
    snd (build_project_thread no_fault "/srv/projects" sample_templates
           "0badc0de" (Classifier.analyze_description "weather forecast")
           LifecycleSpec.w0) in
  let w2 :=
    snd (build_project_thread (one_fault 30 "Disk quota exceeded")
           "/srv/projects" sample_templates "1b9d6bcd"
           (Classifier.analyze_description "todo list app") w1) in
  files w2 !! other = files w1 !! other /\ history other w2 = history other w1.
Proof.
  intros other w1 w2.
  apply (builds_are_isolated (one_fault 30 "Disk quota exceeded")
           "/srv/projects" sample_templates "1b9d6bcd" "0badc0de"
           (Classifier.analyze_description "todo list app") w1).
  - split; [discriminate | reflexivity].
  - split; [discriminate | reflexivity].
  - discriminate.
Defined.

Ltac record_fields :=
  repeat (constructor 2;
          [ split_and!; try reflexivity;
            first [left; reflexivity | right; reflexivity] |]);
  constructor 1.



End ServerProps.

(** ** Further facts about strings: stripping *)
Module StripFacts.
Import Str StrFacts OsPath.

(** A keyword that starts and ends with a character that is no
    whitespace. *)
Definition tight (k : string) : bool :=
  negb (starts_with_space k)
  && match last_char k with
     | Some z => negb (isspace z)
     | None => false
     end.

Lemma split_lstrip s : split (lstrip s) = split s.
Proof.
  induction s as [|c s IH]; [reflexivity |].
  cbn [lstrip]. destruct (isspace c) eqn:E; [| reflexivity].
  rewrite IH. cbn [split]. now rewrite E.
Qed.

Lemma rstrip_head s a r : rstrip s = String a r -> exists t, s = String a t.
Proof.
  destruct s as [|c s]; [discriminate |]. cbn [rstrip].
  destruct (rstrip s); [destruct (isspace c) |]; intros [= <- _]; eauto.
Qed.

Lemma rstrip_all_space s : rstrip s = EmptyString -> all_chars isspace s = true.
Proof. apply rstrip_empty. Qed.

Lemma starts_with_space_all s :
  all_chars isspace s = true -> starts_with_space s = true.
Proof.
  destruct s as [|c s]; [reflexivity |]. cbn [all_chars starts_with_space].
  intros H. now apply andb_true_iff in H as [H _].
Qed.

Lemma split_rstrip s : split (rstrip s) = split s.
Proof.
  induction s as [|c s IH]; [reflexivity |].
  cbn [rstrip]. destruct (rstrip s) as [|a r] eqn:E.
  - pose proof (rstrip_all_space s E) as Hs.
    cbn [split]. rewrite (split_all_space s Hs), (starts_with_space_all s Hs).
    destruct (isspace c) eqn:Ec; [reflexivity |].
    cbn [split starts_with_space]. now rewrite Ec.
  - destruct (rstrip_head s a r E) as [t ->].
    cbn [split] in *. destruct (isspace c); [exact IH |].
    cbn [starts_with_space]. destruct (isspace a); [now rewrite IH |].
    now rewrite IH.
Qed.

Lemma split_strip s : split (strip s) = split s.
Proof. unfold strip. now rewrite split_rstrip, split_lstrip. Qed.

Lemma lower_lstrip s : lower (lstrip s) = lstrip (lower s).
Proof.
  unfold lower. induction s as [|c s IH]; [reflexivity |].
  cbn [lstrip map_chars]. rewrite lower_char_isspace.
  destruct (isspace c); [exact IH | reflexivity].
Qed.

Lemma lower_rstrip s : lower (rstrip s) = rstrip (lower s).
Proof.
  unfold lower. induction s as [|c s IH]; [reflexivity |].
  cbn [rstrip map_chars]. rewrite <- IH, lower_char_isspace.
  destruct (rstrip s); [destruct (isspace c) |]; reflexivity.
Qed.

Lemma lower_strip s : lower (strip s) = strip (lower s).
Proof. unfold strip. now rewrite lower_rstrip, lower_lstrip. Qed.

(** What [rstrip] cuts off is whitespace. *)
Lemma rstrip_decompose s :
  exists r, s = rstrip s +:+ r /\ all_chars isspace r = true.
Proof.
  induction s as [|c s (r & Hs & Hr)]; [exists EmptyString; now split |].
  cbn [rstrip]. destruct (rstrip s) as [|a t] eqn:E.
  - rewrite append_nil in Hs. subst r.
    destruct (isspace c) eqn:Ec.
    + exists (String c s). split; [reflexivity |].
      cbn [all_chars]. now rewrite Ec, Hr.
    + exists s. now split.
  - exists r. split; [| exact Hr]. rewrite append_cons. now rewrite <- Hs.
Qed.

Lemma contains_skip_space k c s :
  isspace c = true -> starts_with_space k = false ->
  contains k (String c s) = contains k s.
Proof.
  intros Hc Hk. rewrite contains_cons.
  destruct k as [|a k]; [discriminate |]. cbn [starts_with_space] in Hk.
  cbn [startswith]. destruct (Ascii.eqb a c) eqn:E; [| reflexivity].
  apply Ascii.eqb_eq in E. congruence.
Qed.

Lemma contains_lstrip k s :
  starts_with_space k = false -> contains k (lstrip s) = contains k s.
Proof.
  intros Hk. induction s as [|c s IH]; [reflexivity |].
  cbn [lstrip]. destruct (isspace c) eqn:E; [| reflexivity].
  now rewrite IH, contains_skip_space.
Qed.

Lemma startswith_all_space k z r :
  last_char k = Some z -> isspace z = false ->
  all_chars isspace r = true -> startswith k r = false.
Proof.
  revert r. induction k as [|a k IH]; intros r Hz Hns Hr; [discriminate |].
  destruct r as [|c r]; [reflexivity |].
  cbn [all_chars] in Hr. apply andb_true_iff in Hr as [Hc Hr].
  cbn [startswith]. destruct k as [|b k].
  - injection Hz as ->. destruct (Ascii.eqb z c) eqn:E; [| reflexivity].
    apply Ascii.eqb_eq in E. congruence.
  - rewrite (IH r Hz Hns Hr). apply andb_false_r.
Qed.

Lemma startswith_trim_right k z x r :
  last_char k = Some z -> isspace z = false ->
  all_chars isspace r = true ->
  startswith k (x +:+ r) = startswith k x.
Proof.
  revert x. induction k as [|a k IH]; intros x Hz Hns Hr; [discriminate |].
  destruct x as [|c x].
  - rewrite append_nil. now apply (startswith_all_space _ z).
  - rewrite append_cons. cbn [startswith]. destruct k as [|b k].
    + reflexivity.
    + now rewrite (IH x Hz Hns Hr).
Qed.

Lemma contains_trim_right k x r :
  tight k = true -> all_chars isspace r = true ->
  contains k (x +:+ r) = contains k x.
Proof.
  unfold tight. intros Hk Hr. apply andb_true_iff in Hk as [Hfirst Hlast].
  destruct (last_char k) as [z|] eqn:Hz; [| discriminate].
  apply negb_true_iff in Hfirst, Hlast.
  induction x as [|c x IH].
  - rewrite append_nil.
    destruct k as [|a k]; [discriminate |]. cbn [starts_with_space] in Hfirst.
    now rewrite (contains_first_char isspace a k r Hr Hfirst).
  - rewrite append_cons, !contains_cons, IH.
    pose proof (startswith_trim_right k z (String c x) r Hz Hlast Hr) as H.
    rewrite append_cons in H. now rewrite H.
Qed.

(** A tight keyword occurs in the stripped text exactly when it occurs in
    the text. *)
Lemma contains_strip k s : tight k = true -> contains k (strip s) = contains k s.
Proof.
  intros Hk. unfold strip.
  destruct (rstrip_decompose (lstrip s)) as (r & Hs & Hr).
  rewrite <- (contains_lstrip k s).
  - rewrite Hs at 2. now rewrite contains_trim_right.
  - unfold tight in Hk. apply andb_true_iff in Hk as [Hk _].
    now apply negb_true_iff in Hk.
Qed.

End StripFacts.

(** ** Properties of the classifier and of the template catalog *)
Module ClassifierProps.
Import Str StrFacts StripFacts Classifier ClassifierFacts.

Lemma find_snoc {A} (f : A -> bool) (l : list A) (a : A) :
  find f (l ++ [a])
  = match find f l with
    | Some x => Some x
    | None => if f a then Some a else None
    end.
Proof.
  induction l as [|b l IH]; [reflexivity |].
  cbn [app find]. now destruct (f b).
Qed.

Lemma find_rev_last {A} (f : A -> bool) (l : list A) :
  match find f (rev l) with
  | Some x => exists before after,
      l = before ++ x :: after /\ f x = true
      /\ forall y, In y after -> f y = false
  | None => forall y, In y l -> f y = false
  end.
Proof.
  induction l as [|a l IH]; [intros y [] |].
  cbn [rev]. rewrite find_snoc.
  destruct (find f (rev l)) as [x|].
  - destruct IH as (before & after & -> & Hx & Hafter).
    now exists (a :: before), after.
  - destruct (f a) eqn:E.
    + exists [], l. now split_and!.
    + intros y [<- | Hy]; [exact E | now apply IH].
Qed.

Lemma scan_keywords_range d kws a :
  scan_keywords d kws a = a \/ In (scan_keywords d kws a) (map fst kws).
Proof.
  induction kws as [|[t kw] kws IH] using rev_ind; [now left |].
  rewrite scan_keywords_snoc, map_app, in_app_iff. cbn [map fst In].
  destruct (hit d kw); tauto.
Qed.

Lemma hit_strip s kws :
  forallb tight kws = true -> hit (strip s) kws = hit s kws.
Proof.
  unfold hit. induction kws as [|k kws IH]; [reflexivity |].
  cbn [forallb existsb]. intros H. apply andb_true_iff in H as [Hk H].
  now rewrite contains_strip, IH.
Qed.

Lemma scan_keywords_strip s kws a :
  forallb (fun x => forallb tight (snd x)) kws = true ->
  scan_keywords (strip s) kws a = scan_keywords s kws a.
Proof.
  unfold scan_keywords. revert a.
  induction kws as [|[t kw] kws IH]; intros a H; [reflexivity |].
  cbn [forallb snd] in H. apply andb_true_iff in H as [Hk H].
  cbn [fold_left]. now rewrite hit_strip, IH.
Qed.

(** The classifier reads the same from a description and from the
    description with its surrounding whitespace removed. *)
Lemma analyze_description_strip d :
  analyze_description (strip d) = analyze_description d.
Proof.
  unfold analyze_description. rewrite lower_strip.
  set (s := lower d).
  assert (Ht : detect_app_type (strip s) = detect_app_type s).
  { apply scan_keywords_strip. reflexivity. }
  assert (Hf : extract_features (strip s) = extract_features s).
  { unfold extract_features. now rewrite !contains_strip by reflexivity. }
  assert (Hp : make_package_name (strip s) = make_package_name s).
  { unfold make_package_name. now rewrite split_strip. }
  now rewrite Ht, Hf, Hp.
Qed.

(** Nor does the letter case of the description matter. *)
Lemma analyze_description_lower d :
  analyze_description (lower d) = analyze_description d.
Proof. unfold analyze_description. now rewrite lower_idem. Qed.

(** The archetype is the one of the last entry of the keyword table, in
    table order, one of whose keywords occurs in the lower-cased
    description, and [webview] when no keyword of the table occurs. *)
Theorem classification_is_last_hit (d t : string) :
  app_type (analyze_description d) = t
  <-> (exists before kw_list after,
          keywords = before ++ (t, kw_list) :: after
          /\ hit (lower d) kw_list = true
          /\ forall x, In x after -> hit (lower d) (snd x) = false)
      \/ (t = "webview"
          /\ forall x, In x keywords -> hit (lower d) (snd x) = false).
Proof.
  unfold analyze_description. cbn [app_type]. split.
  - intros <-. unfold detect_app_type. rewrite scan_keywords_last.
    pose proof (find_rev_last (fun '(_, kw) => hit (lower d) kw) keywords) as H.
    destruct (find _ (rev keywords)) as [[t kw]|].
    + left. destruct H as (before & after & Hk & Hhit & Hafter).
      exists before, kw, after. split_and!; [exact Hk | exact Hhit |].
      intros [t' kw'] Hx. exact (Hafter _ Hx).
    + right. split; [reflexivity |].
      intros [t' kw'] Hx. exact (H _ Hx).
  - intros [(before & kw & after & Hk & Hhit & Hafter) | [-> Hnone]].
    + now apply (detect_app_type_no_later_hit _ before t kw after).
    + now apply scan_keywords_no_hit.
Qed.

Lemma detect_app_type_range s :
  In (detect_app_type s) (map fst keywords).
Proof.
  unfold detect_app_type.
  destruct (scan_keywords_range s keywords "webview") as [-> | H];
    [vm_compute; tauto | exact H].
Qed.

Lemma registered_entry t :
  In t (map fst keywords) ->
  exists tpl, Catalog.templates_get t = Some tpl
              /\ In (t, tpl) Catalog.templates.
Proof.
  intros H. cbn in H.
  repeat (destruct H as [<- | H];
          [eexists; split; [reflexivity | vm_compute; tauto] |]).
  destruct H.
Qed.

(** The analysis does not depend on the letter case of the description nor
    on whitespace around it: archetype, features, package identifier and
    feature count are those of the description stripped and of the
    description lower-cased. *)
Theorem analysis_ignores_case_and_margins (d : string) :
  analyze_description (strip d) = analyze_description d
  /\ analyze_description (lower d) = analyze_description d.
Proof.
  split; [apply analyze_description_strip | apply analyze_description_lower].
Qed.

(** Whatever the description, the archetype the classifier returns is a key
    of the template catalog and of the table of application names, so the
    generated resources never carry the fallback name [Rahl App]. *)
Theorem classified_type_is_registered (d : string) :
  let t := app_type (analyze_description d) in
  In t (map fst Catalog.templates)
  /\ In (t, Builder.app_name_of t) Builder.app_names
  /\ Builder.app_name_of t <> "Rahl App".
Proof.
  cbv zeta. unfold analyze_description. cbn [app_type].
  pose proof (detect_app_type_range (lower d)) as H.
  revert H. generalize (detect_app_type (lower d)). intros t H. cbn in H.
  repeat (destruct H as [<- | H];
          [vm_compute; split_and!; [tauto | tauto | discriminate] |]).
  destruct H.
Qed.


End ClassifierProps.

(** ** Properties of the build invoker *)
Module InvokerProps.
Import Str StrFacts OsPath Sys Invoker.

Lemma endswith_refl s : endswith s s = true.
Proof. destruct s; cbn [endswith]; now rewrite String.eqb_refl. Qed.

Lemma endswith_app suffix a s :
  endswith suffix s = true -> endswith suffix (a +:+ s) = true.
Proof.
  intros H. induction a as [|c a IH]; [exact H |].
  rewrite append_cons. cbn [endswith]. rewrite IH. apply orb_true_r.
Qed.

Lemma endswith_join2 suffix dir name :
  endswith suffix name = true -> endswith suffix (join2 dir name) = true.
Proof.
  intros H. unfold join2.
  destruct (startswith "/" name); [exact H |].
  destruct (match dir with EmptyString => true | _ => endswith_sep dir end).
  - now apply endswith_app.
  - now apply endswith_app, endswith_app.
Qed.

Lemma lexists_entry p ps :
  lexists p ps = true <-> exists e, entry_at p ps = Some e.
Proof.
  unfold lexists. destruct (entry_at p ps) as [e|].
  - split; eauto.
  - split; [discriminate | intros [e [=]]].
Qed.

Lemma head_In {A} (l : list A) x : head l = Some x -> In x l.
Proof. destruct l; [discriminate | intros [= ->]; now left]. Qed.

Lemma glob_apk_suffix dir ps p :
  In p (glob_apk dir ps) -> endswith ".apk" p = true.
Proof.
  unfold glob_apk. rewrite in_flat_map. intros (e & _ & H).
  destruct (name_in _ e) as [name|]; [| destruct H].
  destruct (endswith ".apk" name) eqn:E; [| destruct H].
  destruct (negb (startswith "." name)); [| destruct H].
  destruct H as [<- | []]. now apply endswith_join2.
Qed.

Lemma walk_apk_suffix root ps p :
  In p (walk_apk root ps) -> endswith ".apk" p = true.
Proof.
  unfold walk_apk. rewrite in_flat_map. intros (e & _ & H).
  destruct (strip_prefix _ (path e)) as [rest|]; [| destruct H].
  destruct (negb (is_directory e)); [| destruct H].
  destruct (endswith ".apk" rest) eqn:E; [| destruct H].
  destruct H as [<- | []]. now apply endswith_join2.
Qed.

Lemma walk_apk_none root ps e rest :
  walk_apk root ps = [] ->
  In e (disk ps) ->
  strip_prefix (join2 (abspath (cwd ps) root) EmptyString) (path e) = Some rest ->
  is_directory e = false ->
  endswith ".apk" rest = false.
Proof.
  unfold walk_apk. intros Hnil Hin Hrest Hfile.
  destruct (endswith ".apk" rest) eqn:E; [| reflexivity].
  assert (H : In (join2 root rest) ([] : list string)); [| destruct H].
  rewrite <- Hnil. apply in_flat_map. exists e. split; [exact Hin |].
  rewrite Hrest, Hfile, E. now left.
Qed.


Lemma abspath_of_absolute c o : startswith "/" o = true -> abspath c o = o.
Proof.
  intros H. unfold abspath, join2.
  destruct o as [|a o]; [discriminate |].
  cbn [startswith] in H. apply andb_true_iff in H as [Ha _].
  apply Ascii.eqb_eq in Ha. subst a. reflexivity.
Qed.

Lemma process_surjective ps : ps = mkProcess (cwd ps) (disk ps).
Proof. now destruct ps. Qed.

Section WithToolchain.
Variable gradle : list string -> string -> option string -> list Entry -> Spawn.
Variable android_sdk_path : option string.
Variables project_path build_type : string.
Variable ps : Process.

(** The working directory is an absolute path and exists. *)
Hypothesis cwd_absolute : startswith "/" (cwd ps) = true.
Hypothesis cwd_exists : isdir (cwd ps) ps = true.

(** What the build tool is called with: the command, decided by the wrapper
    script of the project directory, and that directory. *)
Definition outcome : Spawn :=
  gradle (gradle_command build_type
            (lexists "./gradlew"
               (mkProcess (abspath (cwd ps) project_path) (disk ps))))
         (abspath (cwd ps) project_path) android_sdk_path (disk ps).

Lemma chdir_home c d :
  directory_at (cwd ps) d = true ->
  chdir (cwd ps) (mkProcess c d) = (Ok tt, mkProcess (cwd ps) d).
Proof.
  intros H. unfold chdir, isdir. cbn [cwd disk].
  rewrite (abspath_of_absolute c _ cwd_absolute). now rewrite H.
Qed.

Lemma cwd_on_disk : directory_at (cwd ps) (disk ps) = true.
Proof.
  pose proof cwd_exists as H. unfold isdir in H.
  now rewrite abspath_of_absolute in H.
Qed.

Lemma build_apk_no_project :
  isdir project_path ps = false ->
  build_apk gradle android_sdk_path project_path build_type ps
  = (Ok (Failure "FileNotFoundError" None), ps).
Proof.
  intros Hproj. unfold build_apk, getcwd. rewrite cwd_exists.
  unfold try_except, build_apk_try. unfold bind at 1. unfold chdir at 1.
  rewrite Hproj. unfold ret.
  pose proof (chdir_home (cwd ps) (disk ps) cwd_on_disk) as Hb.
  rewrite <- !(process_surjective ps) in Hb. now rewrite Hb.
Qed.

Lemma build_apk_spawn_error e :
  isdir project_path ps = true ->
  outcome = SpawnError e ->
  build_apk gradle android_sdk_path project_path build_type ps
  = (Ok (Failure e None), ps).
Proof.
  unfold outcome. intros Hproj Hrun. unfold build_apk, getcwd.
  rewrite cwd_exists.
  unfold try_except, build_apk_try. unfold bind at 1. unfold chdir at 1.
  rewrite Hproj.
  unfold bind at 1, path_exists at 1. unfold bind at 1, run_process at 1.
  cbn [cwd disk]. rewrite Hrun. unfold ret.
  rewrite (chdir_home _ _ cwd_on_disk). now rewrite <- (process_surjective ps).
Qed.

Lemma build_apk_stream_error e after :
  isdir project_path ps = true ->
  outcome = StreamError e after ->
  directory_at (cwd ps) after = true ->
  build_apk gradle android_sdk_path project_path build_type ps
  = (Ok (Failure e None), mkProcess (cwd ps) after).
Proof.
  unfold outcome. intros Hproj Hrun Hkeep. unfold build_apk, getcwd.
  rewrite cwd_exists.
  unfold try_except, build_apk_try. unfold bind at 1. unfold chdir at 1.
  rewrite Hproj.
  unfold bind at 1, path_exists at 1. unfold bind at 1, run_process at 1.
  cbn [cwd disk]. rewrite Hrun. unfold ret.
  now rewrite (chdir_home _ _ Hkeep).
Qed.

Lemma build_apk_found lines after apk e :
  isdir project_path ps = true ->
  outcome = Exited lines 0 after ->
  directory_at (cwd ps) after = true ->
  _find_apk_file project_path build_type (mkProcess (cwd ps) after) = Some apk ->
  entry_at apk (mkProcess (cwd ps) after) = Some e ->
  build_apk gradle android_sdk_path project_path build_type ps
  = (Ok (Success apk (st_size e)
           (join newline (last_n 20 (map strip lines)))),
     mkProcess (cwd ps) after).
Proof.
  unfold outcome. intros Hproj Hrun Hkeep Hfind Hentry.
  unfold build_apk, getcwd. rewrite cwd_exists.
  unfold try_except, build_apk_try. unfold bind at 1. unfold chdir at 1.
  rewrite Hproj.
  unfold bind at 1, path_exists at 1. unfold bind at 1, run_process at 1.
  cbn [cwd disk]. rewrite Hrun.
  unfold bind at 1. rewrite (chdir_home _ _ Hkeep). cbn [fst snd].
  change (0 =? 0)%Z with true. cbv beta iota. rewrite Hfind.
  unfold bind, getsize, ret. rewrite Hentry.
  now rewrite (chdir_home _ _ Hkeep).
Qed.

End WithToolchain.


(** A project with a wrapper script, and a build that writes the debug
    artifact. *)
Definition shop_process : Process :=
  mkProcess "/home/dev"
    [ mkEntry "/home/dev" true 4096;
      mkEntry "/home/dev/shop" true 4096;
      mkEntry "/home/dev/shop/gradlew" false 1024 ].

Definition working_gradle
  : list string -> string -> option string -> list Entry -> Spawn :=
  fun cmd c sdk d =>
    Exited [" > Task :app:assembleDebug"; "BUILD SUCCESSFUL "] 0
      (d ++ [ mkEntry "/home/dev/shop/app/build/outputs/apk/debug/app-debug.apk"
                false 2048 ]).



Definition missing_gradle
  : list string -> string -> option string -> list Entry -> Spawn :=
  fun cmd c sdk d =>
    SpawnError "[Errno 2] No such file or directory: './gradlew'".


End InvokerProps.

(** ** Where a build writes *)
Module ScaffoldProps.
Import Str StrFacts OsPath Sys Builder Server PathFacts SysFacts BuilderFacts
  ServerFacts.

Lemma startswith_refl a : startswith a a = true.
Proof.
  rewrite <- (append_empty_r a) at 2. apply startswith_self_app.
Qed.

Lemma startswith_join2 a b x :
  startswith a b = true -> startswith "/" x = false ->
  startswith a (join2 b x) = true.
Proof.
  intros Hab Hx. unfold join2. rewrite Hx.
  destruct (match b with EmptyString => true | _ => endswith_sep b end);
    now apply startswith_app_r.
Qed.

(** Joining relative components stays below the starting path. *)
Lemma startswith_path_join a b segs :
  startswith a b = true ->
  forallb (fun x => negb (startswith "/" x)) segs = true ->
  startswith a (path_join b segs) = true.
Proof.
  unfold path_join. revert b.
  induction segs as [|x segs IH]; intros b Hab Hrel; [exact Hab |].
  cbn [forallb] in Hrel. apply andb_true_iff in Hrel as [Hx Hrel].
  apply negb_true_iff in Hx.
  cbn [fold_left]. apply IH; [now apply startswith_join2 | exact Hrel].
Qed.

(** An absolute component makes [os.path.join] forget what precedes it. *)
Lemma path_join_absolute a before seg after :
  startswith "/" seg = true ->
  path_join a (before ++ seg :: after) = path_join seg after.
Proof.
  intros H. unfold path_join. rewrite fold_left_app. cbn [fold_left].
  unfold join2 at 2. now rewrite H.
Qed.

Lemma below_neq a p q :
  startswith a p = false -> startswith a q = true -> q <> p.
Proof. intros Hp Hq ->. congruence. Qed.

(** The package identifiers of the classifier give a relative package
    path. *)
Lemma package_path_relative d :
  startswith "/"
    (replace_char "." "/"
       (Classifier.package_name (Classifier.analyze_description d)))
  = false.
Proof. reflexivity. Qed.

Ltac below_path Hpkg :=
  repeat first
    [ apply startswith_refl
    | apply startswith_path_join;
      [| cbn [forallb]; rewrite ?Hpkg; reflexivity] ].

Ltac leaves_steps fault pp Hp Hpkg :=
  repeat first
    [ apply leaves_ret | apply leaves_now | apply leaves_makedirs
    | apply leaves_path_exists | apply (leaves_read_json fault)
    | apply leaves_write_file, (below_neq pp); [exact Hp | below_path Hpkg]
    | apply leaves_bind; [| intros ?]
    | match goal with
      | |- leaves _ (if ?b then _ else _) => destruct b
      end ].

Lemma generate_android_project_below fault T pp at_ pkg feats p :
  startswith "/" (replace_char "." "/" pkg) = false ->
  startswith pp p = false ->
  leaves p (generate_android_project fault T pp at_ pkg feats).
Proof.
  intros Hpkg Hp.
  unfold generate_android_project, generate_manifest, generate_main_activity,
    generate_layouts, generate_build_gradle, generate_strings, create_dummy_apk.
  leaves_steps fault pp Hp Hpkg.
Qed.

Lemma create_project_below fault PROJECTS_DIR T project_id at_ pkg feats desc p :
  startswith "/" (replace_char "." "/" pkg) = false ->
  startswith (path_join PROJECTS_DIR [project_id]) p = false ->
  leaves p (create_project fault PROJECTS_DIR T project_id at_ pkg feats desc).
Proof.
  intros Hpkg Hp. unfold create_project, metadata_path_of.
  set (pp := path_join PROJECTS_DIR [project_id]) in *. clearbody pp.
  repeat first
    [ apply generate_android_project_below; assumption
    | apply leaves_ret | apply leaves_now | apply leaves_makedirs
    | apply leaves_write_file, (below_neq pp); [exact Hp | below_path Hpkg]
    | apply leaves_bind; [| intros ?] ].
Qed.

Lemma thread_below fault PROJECTS_DIR T project_id analysis p :
  startswith "/" (replace_char "." "/" (Classifier.package_name analysis))
  = false ->
  startswith (path_join PROJECTS_DIR [project_id]) p = false ->
  leaves p (build_project_thread fault PROJECTS_DIR T project_id analysis).
Proof.
  intros Hpkg Hp.
  unfold build_project_thread, build_project_try, build_project_except, print.
  apply leaves_try_except.
  - apply (leaves_bind_const _ _ _ (path_join PROJECTS_DIR [project_id])).
    + intros w a w' H.
      now apply (create_project_ok fault PROJECTS_DIR T) in H as (-> & _).
    + now apply create_project_below.
    + unfold metadata_path_of, apk_path_of.
      set (pp := path_join PROJECTS_DIR [project_id]) in *. clearbody pp.
      leaves_steps fault pp Hp Hpkg.
  - intros e. unfold metadata_path_of.
    set (pp := path_join PROJECTS_DIR [project_id]) in *. clearbody pp.
    leaves_steps fault pp Hp Hpkg.
Qed.

(** A build changes no file outside its project directory.  Whatever the
    description the analysis was made from and whatever fails, a file
    whose path does not start with the path of the project directory has
    the same content and the same history after the thread as before. *)
Theorem build_writes_only_below_project
    (fault : nat -> option string) (PROJECTS_DIR : string) (T : Templates)
    (project_id d : string) (w : World) (p : string) :
  startswith (path_join PROJECTS_DIR [project_id]) p = false ->
  let w' :=
    snd (build_project_thread fault PROJECTS_DIR T project_id
           (Classifier.analyze_description d) w) in
  files w' !! p = files w !! p /\ history p w' = history p w.
Proof.
  intros Hp w'.
  apply (thread_below fault PROJECTS_DIR T project_id
           (Classifier.analyze_description d) p);
    [apply package_path_relative | exact Hp].
Qed.

Lemma build_writes_only_below_project_witness :
  let w' :=
    snd (build_project_thread (one_fault 9 "Disk quota exceeded")
           "/srv/projects" sample_templates "1b9d6bcd"
           (Classifier.analyze_description "/etc/passwd ../../x notes")
           (world (initial "2024-05-01T10:00:00"))) in
  files w' !! "/etc/passwd" = None /\ history "/etc/passwd" w' = [].
Proof.
  exact (build_writes_only_below_project (one_fault 9 "Disk quota exceeded")
           "/srv/projects" sample_templates "1b9d6bcd"
           "/etc/passwd ../../x notes"
           (world (initial "2024-05-01T10:00:00")) "/etc/passwd" eq_refl).
Defined.

(** *** Directories *)

(** A computation that removes no directory, however it ends. *)
Definition grows {A} (c : M A) : Prop :=
  forall w, dirs w ⊆ dirs (snd (c w)).

Lemma grows_ret {A} (a : A) : grows (ret a).
Proof. intros w. reflexivity. Qed.

Lemma grows_bind {A B} (c : M A) (k : A -> M B) :
  grows c -> (forall a, grows (k a)) -> grows (bind c k).
Proof.
  intros Hc Hk w. unfold bind. specialize (Hc w).
  destruct (c w) as [[a|e] w1]; [| exact Hc].
  specialize (Hk a w1). simpl in Hc. etransitivity; eassumption.
Qed.

Lemma grows_makedirs fault q : grows (makedirs fault q).
Proof.
  intros w. unfold makedirs, syscall.
  destruct (fault (ticks w)); [reflexivity |].
  cbn [snd dirs set_dirs tick]. apply union_subseteq_l.
Qed.

Lemma grows_write_file fault q f : grows (write_file fault q f).
Proof.
  intros w. unfold write_file, syscall.
  destruct (fault (ticks w)); reflexivity.
Qed.

Ltac grows_steps :=
  repeat first
    [ apply grows_ret | apply grows_makedirs | apply grows_write_file
    | apply grows_bind; [| intros ?]
    | match goal with
      | |- grows (if ?b then _ else _) => destruct b
      end ].

(** Scaffolding can create a directory outside the project.  When a
    component of the package name, split at the dots, starts with a slash,
    the first directory scaffolding asks for is the path made of that
    component and the ones after it, whatever the project path; once the
    first system call has gone through, this directory is there, whatever
    fails later. *)
Theorem scaffold_directory_outside_project
    (fault : nat -> option string) (T : Templates)
    (project_path app_type package_name : string) (features : list string)
    (w : World) (before : list string) (seg : string) (after : list string) :
  split_on "." package_name = before ++ seg :: after ->
  startswith "/" seg = true ->
  fault (ticks w) = None ->
  path_join (path_join project_path ["app"; "src"; "main"])
    ("java" :: split_on "." package_name)
  = path_join seg after
  /\ path_join seg after
     ∈ dirs (snd (generate_android_project fault T project_path app_type
                    package_name features w)).
Proof.
  intros Hsplit Hseg Hfault.
  assert (Hpath :
    path_join (path_join project_path ["app"; "src"; "main"])
      ("java" :: split_on "." package_name)
    = path_join seg after).
  { rewrite Hsplit.
    now rewrite (path_join_absolute _ ("java" :: before) seg after Hseg). }
  split; [exact Hpath |].
  unfold generate_android_project. rewrite Hpath.
  unfold bind at 1. unfold makedirs at 1. rewrite (syscall_run _ _ _ Hfault).
  match goal with
  | |- _ ∈ dirs (snd (?k ?w1)) =>
      assert (Hk : grows k); [| apply (Hk w1)]
  end.
  - unfold generate_manifest, generate_main_activity, generate_layouts,
      generate_build_gradle, generate_strings, create_dummy_apk.
    grows_steps.
  - cbn [dirs set_dirs tick]. apply elem_of_union_r, elem_of_singleton.
    reflexivity.
Qed.

Lemma scaffold_directory_outside_project_witness :
  Classifier.package_name (Classifier.analyze_description "/tmp/pwn x y")
  = "com.rahl./tmp/pwn.x.y"
  /\ "/tmp/pwn/x/y"
     ∈ dirs (snd (generate_android_project (one_fault 3 "Disk quota exceeded")
                    sample_templates "/srv/projects/1b9d6bcd" "webview"
                    "com.rahl./tmp/pwn.x.y" []
                    (world (initial "2024-05-01T10:00:00")))).
Proof.
  split; [reflexivity |].
  exact (proj2 (scaffold_directory_outside_project
                  (one_fault 3 "Disk quota exceeded") sample_templates
                  "/srv/projects/1b9d6bcd" "webview" "com.rahl./tmp/pwn.x.y" []
                  (world (initial "2024-05-01T10:00:00"))
                  ["com"; "rahl"] "/tmp/pwn" ["x"; "y"]
                  eq_refl eq_refl eq_refl)).
Defined.

End ScaffoldProps.

(** ** Properties of the environment probe *)
Module ToolchainProps.
Import Str OsPath Sys Invoker Toolchain.

(** A location counts when it is set, not empty, and exists. *)
Definition usable (ps : Process) (o : option string) : bool :=
  truthy o && match o with
              | Some p => lexists p ps
              | None => false
              end.

Lemma first_sdk_find candidates ps :
  first_sdk candidates ps
  = match find (usable ps) candidates with
    | Some o => o
    | None => None
    end.
Proof. reflexivity. Qed.

Lemma first_sdk_some candidates ps p :
  first_sdk candidates ps = Some p ->
  exists before after,
    candidates = before ++ Some p :: after
    /\ usable ps (Some p) = true
    /\ forall o, In o before -> usable ps o = false.
Proof.
  rewrite first_sdk_find.
  induction candidates as [|o l IH]; [discriminate |].
  cbn [find]. destruct (usable ps o) eqn:E.
  - intros ->. exists [], l. split_and!; [reflexivity | exact E | intros ? []].
  - intros H. destruct (IH H) as (before & after & -> & Hu & Hb).
    exists (o :: before), after. split_and!; [reflexivity | exact Hu |].
    intros o' [<- | Hin]; [exact E | now apply Hb].
Qed.

Lemma first_sdk_none candidates ps :
  first_sdk candidates ps = None ->
  forall o, In o candidates -> usable ps o = false.
Proof.
  rewrite first_sdk_find.
  induction candidates as [|o l IH]; [intros _ ? [] |].
  cbn [find]. destruct (usable ps o) eqn:E.
  - intros ->. discriminate.
  - intros H o' [<- | Hin]; [exact E | now apply IH].
Qed.

Lemma usable_some ps p :
  usable ps (Some p) = true <-> p <> EmptyString /\ lexists p ps = true.
Proof.
  unfold usable, truthy. destruct p as [|c p].
  - split; [discriminate | intros [H _]; congruence].
  - cbn [andb]. split; [intros H; split; [discriminate | exact H] | tauto].
Qed.

Lemma check_android_sdk_found android_sdk_path home ps :
  fst (_check_android_sdk android_sdk_path home ps) = true
  <-> exists p, In (Some p) (sdk_paths android_sdk_path home)
                /\ p <> EmptyString /\ lexists p ps = true.
Proof.
  unfold _check_android_sdk.
  destruct (first_sdk (sdk_paths android_sdk_path home) ps) as [p|] eqn:E;
    cbn [fst].
  - destruct (first_sdk_some _ _ _ E) as (before & after & Hc & Hu & _).
    apply usable_some in Hu as [Hne Hex].
    split; [intros _ | reflexivity].
    exists p. split_and!; [| exact Hne | exact Hex].
    rewrite Hc. apply in_app_iff. right. now left.
  - pose proof (first_sdk_none _ _ E) as Hn.
    split; [discriminate |]. intros (p & Hin & Hne & Hex).
    specialize (Hn _ Hin).
    assert (Hu : usable ps (Some p) = true) by now apply usable_some.
    congruence.
Qed.

(** The search for the SDK.  It succeeds exactly when one of the four
    locations is set, not empty and exists; it then stores the first such
    location in the order configured path, [$HOME/Android/Sdk],
    [/usr/local/android-sdk], [C:\Android\Sdk], so that a configured path
    that exists is kept and one that does not is replaced.  When it fails,
    the stored path is the configured one. *)
Theorem check_android_sdk_result
    (android_sdk_path home : option string) (ps : Process) :
  let candidates := sdk_paths android_sdk_path home in
  let found := fst (_check_android_sdk android_sdk_path home ps) in
  let stored := snd (_check_android_sdk android_sdk_path home ps) in
  (found = true <-> exists p, In (Some p) candidates
                              /\ p <> EmptyString /\ lexists p ps = true)
  /\ (found = true ->
      exists before p after,
        candidates = before ++ Some p :: after
        /\ stored = Some p
        /\ p <> EmptyString /\ lexists p ps = true
        /\ forall q, In (Some q) before ->
                     q = EmptyString \/ lexists q ps = false)
  /\ (found = false -> stored = android_sdk_path)
  /\ (forall p, android_sdk_path = Some p -> p <> EmptyString ->
                lexists p ps = true -> found = true /\ stored = Some p).
Proof.
  cbv zeta. unfold _check_android_sdk.
  destruct (first_sdk (sdk_paths android_sdk_path home) ps) as [p|] eqn:E;
    cbn [fst snd].
  - destruct (first_sdk_some _ _ _ E) as (before & after & Hc & Hu & Hb).
    apply usable_some in Hu as [Hne Hex].
    split_and!.
    + rewrite <- check_android_sdk_found. unfold _check_android_sdk.
      now rewrite E.
    + intros _. exists before, p, after.
      split_and!; [exact Hc | reflexivity | exact Hne | exact Hex |].
      intros q Hq. specialize (Hb _ Hq).
      destruct (lexists q ps) eqn:Eq; [left | now right].
      destruct q; [reflexivity |].
      unfold usable in Hb. cbn [truthy andb] in Hb. congruence.
    + discriminate.
    + intros q -> Hq Hlex. split; [reflexivity |].
      unfold sdk_paths in E. rewrite first_sdk_find in E. cbn [find] in E.
      assert (Hu : usable ps (Some q) = true) by now apply usable_some.
      rewrite Hu in E. congruence.
  - pose proof (first_sdk_none _ _ E) as Hn.
    split_and!.
    + rewrite <- check_android_sdk_found. unfold _check_android_sdk.
      now rewrite E.
    + discriminate.
    + reflexivity.
    + intros p -> Hne Hex. exfalso.
      assert (Hu : usable ps (Some p) = true) by now apply usable_some.
      rewrite (Hn (Some p)) in Hu; [discriminate | now left].
Qed.

(** The environment report.  It is ready exactly when [java -version]
    exits with code 0, one of the SDK locations exists, and either the
    working directory holds a Gradle wrapper or [gradle --version] exits
    with code 0; a tool that cannot be started counts as missing.  The
    message follows the status, the three checks are listed in the order
    Java, Android SDK, Gradle, and the SDK path stored afterwards is the
    one the SDK search stores. *)
Theorem check_environment_ready_iff
    (run : list string -> option Z) (android_sdk_path home : option string)
    (ps : Process) :
  let report := fst (check_environment run android_sdk_path home ps) in
  (report_status report = true
   <-> run ["java"; "-version"] = Some 0%Z
       /\ (exists p, In (Some p) (sdk_paths android_sdk_path home)
                     /\ p <> EmptyString /\ lexists p ps = true)
       /\ (lexists "./gradlew" ps = true
           \/ run ["gradle"; "--version"] = Some 0%Z))
  /\ message report
     = (if report_status report then "Environment ready"
        else "Missing Android build tools")
  /\ map fst (checks report) = ["Java"; "Android SDK"; "Gradle"]
  /\ report_status report = forallb snd (checks report)
  /\ snd (check_environment run android_sdk_path home ps)
     = snd (_check_android_sdk android_sdk_path home ps).
Proof.
  cbv zeta.
  pose proof (check_android_sdk_found android_sdk_path home ps) as Hsdk.
  unfold check_environment.
  destruct (_check_android_sdk android_sdk_path home ps) as [sdk stored].
  cbn [fst snd] in *. cbn [report_status message checks map forallb fst snd].
  split_and!; try reflexivity.
  rewrite andb_true_r, !andb_true_iff, Hsdk.
  assert (Hrun : forall cmd, returned_zero run cmd = true <-> run cmd = Some 0%Z).
  { intros cmd. unfold returned_zero. destruct (run cmd) as [z|].
    - rewrite Z.eqb_eq. split; [now intros -> | now intros [= ->]].
    - split; discriminate. }
  unfold _check_java, _check_gradle. rewrite Hrun.
  destruct (lexists "./gradlew" ps).
  - tauto.
  - rewrite Hrun. intuition discriminate.
Qed.

End ToolchainProps.

(** ** Properties of the first server *)
Module LegacyProps.
Import Str Legacy.

(** The template the first server copies.  Its classifier answers one of
    the four app types [calculator], [notes], [webview] and [game]; only
    three of them have a template, and a [game] request, which is one that
    names a game and none of the keywords tested before, is built from the
    WebView template like a request without any keyword.  The template
    copied is always one of the three registered ones, and it is the one
    registered for the app type unless that is [game]. *)
Theorem template_choice (text : string) :
  let t := detect_app_type text in
  In t ["calculator"; "notes"; "webview"; "game"]
  /\ In (template_for t) (map snd templates)
  /\ (t = "game" -> template_for t = webview_template)
  /\ (t <> "game" -> In (t, template_for t) templates)
  /\ (t = "game" <->
      contains "game" (lower text) = true
      /\ forall k, In k ["calculator"; "note"; "todo"; "website"; "web"] ->
                   contains k (lower text) = false).
Proof.
  cbv zeta. unfold detect_app_type.
  assert (Hall : forall P : string -> Prop,
             (forall k, In k ["calculator"; "note"; "todo"; "website"; "web"]
                        -> P k)
             <-> P "calculator" /\ P "note" /\ P "todo" /\ P "website"
                 /\ P "web").
  { intros P. split.
    - intros H. split_and!; apply H; cbn; tauto.
    - intros (H1 & H2 & H3 & H4 & H5) k Hk. cbn in Hk.
      destruct Hk as [<- | [<- | [<- | [<- | [<- | []]]]]]; assumption. }
  rewrite (Hall (fun k => contains k (lower text) = false)).
  destruct (contains "calculator" (lower text));
    [| destruct (contains "note" (lower text));
       [| destruct (contains "todo" (lower text));
          [| destruct (contains "website" (lower text));
             [| destruct (contains "web" (lower text));
                [| destruct (contains "game" (lower text))]]]]];
    cbn [orb];
    (split_and!;
     [ cbn; tauto
     | vm_compute; tauto
     | first [ reflexivity | discriminate ]
     | first [ intros _; vm_compute; tauto | congruence ]
     | split; [ first [discriminate | intros _; now split_and!]
              | first [reflexivity | intros (? & ? & ? & ? & ? & ?); discriminate] ] ]).
Qed.

End LegacyProps.
